(** * devtools-dashboard backend: the Flask proxy handlers of [backend/app.py]

    The development embeds the seven view functions of [app.py] and the
    fragment of Python they run on:

    - [Unicode]: Python strings as UTF-8 bytes, with [repr] and the
      character tables [float] consults;
    - [PyFloat]: Python's [float] (IEEE-754 binary64) with the three
      operations the currency endpoint uses: [float(...)], [*] and
      [round(x, 2)];
    - [Py]: exceptions, parsed JSON values, subscripting, [dict.get],
      slicing and truthiness;
    - [Web]: the Flask response object, [jsonify], query arguments, the
      outbound [requests.get] as an event of a small program monad;
    - [App]: the view functions, line by line, and the URL map. *)

From Stdlib Require Import ZArith String Ascii Bool.
From Stdlib Require Import Floats.SpecFloat.
From stdpp Require Import base option list gmap strings pretty.

Local Open Scope string_scope.
Local Open Scope list_scope.
Local Open Scope Z_scope.

(* ===================================================================== *)
(** * Python strings *)
(* ===================================================================== *)

(** A Python [str] is represented by the bytes of its UTF-8 encoding.
    The tables are those of the Unicode database 14.0.0 that CPython 3.11
    carries; the behaviour of the interpreter is that of CPython 3.11
    throughout the file. *)

Module Unicode.

Definition byte_values (s : string) : list Z :=
  (fun c => Z.of_nat (nat_of_ascii c)) <$> list_ascii_of_string s.

Definition char_of (b : Z) : ascii := ascii_of_nat (Z.to_nat b).

Definition is_continuation (b : Z) : bool := (128 <=? b) && (b <? 192).

(** The code points of a UTF-8 byte sequence; [None] when the bytes are
    not the encoding of a string (a stray or missing continuation byte,
    an overlong form, a surrogate, a value above U+10FFFF). *)
Fixpoint utf8_decode (bs : list Z) : option (list Z) :=
  match bs with
  | [] => Some []
  | b0 :: r0 =>
      if b0 <? 128 then cons b0 <$> utf8_decode r0
      else if b0 <? 194 then None
      else if b0 <? 224 then
        match r0 with
        | b1 :: r1 =>
            if is_continuation b1 then
              cons ((b0 - 192) * 64 + (b1 - 128)) <$> utf8_decode r1
            else None
        | _ => None
        end
      else if b0 <? 240 then
        match r0 with
        | b1 :: b2 :: r2 =>
            let cp := (b0 - 224) * 4096 + (b1 - 128) * 64 + (b2 - 128) in
            if is_continuation b1 && is_continuation b2
               && (2048 <=? cp) && negb ((55296 <=? cp) && (cp <=? 57343))
            then cons cp <$> utf8_decode r2
            else None
        | _ => None
        end
      else if b0 <? 245 then
        match r0 with
        | b1 :: b2 :: b3 :: r3 =>
            let cp := (b0 - 240) * 262144 + (b1 - 128) * 4096
                      + (b2 - 128) * 64 + (b3 - 128) in
            if is_continuation b1 && is_continuation b2 && is_continuation b3
               && (65536 <=? cp) && (cp <=? 1114111)
            then cons cp <$> utf8_decode r3
            else None
        | _ => None
        end
      else None
  end.

Definition code_points (s : string) : option (list Z) :=
  utf8_decode (byte_values s).

(** The UTF-8 bytes of one code point. *)
Definition utf8_encode (cp : Z) : list Z :=
  if cp <? 128 then [cp]
  else if cp <? 2048 then [192 + cp / 64; 128 + cp mod 64]
  else if cp <? 65536 then
    [224 + cp / 4096; 128 + (cp / 64) mod 64; 128 + cp mod 64]
  else
    [240 + cp / 262144; 128 + (cp / 4096) mod 64;
     128 + (cp / 64) mod 64; 128 + cp mod 64].

(** The code points of the digit zero of every script with decimal
    digits; the nine code points after each are its digits 1 to 9. *)
Definition decimal_zeros : list Z :=
  [
   48; 1632; 1776; 1984; 2406; 2534; 2662; 2790; 2918; 3046; 3174; 3302;
   3430; 3558; 3664; 3792; 3872; 4160; 4240; 6112; 6160; 6470; 6608; 6784;
   6800; 6992; 7088; 7232; 7248; 42528; 43216; 43264; 43472; 43504; 43600;
   44016; 65296; 66720; 68912; 69734; 69872; 69942; 70096; 70384; 70736;
   70864; 71248; 71360; 71472; 71904; 72016; 72784; 73040; 73120; 92768;
   92864; 93008; 120782; 120792; 120802; 120812; 120822; 123200; 123632;
   125264; 130032
  ].

(** The decimal value of a code point that is a decimal digit. *)
Definition decimal_value (cp : Z) : option Z :=
  (fun zero => cp - zero)
    <$> head (filter (fun zero => (zero <=? cp) && (cp <=? zero + 9)) decimal_zeros).

(** The white space above U+007E. *)
Definition high_spaces : list Z :=
  [
   133; 160; 5760; 8192; 8193; 8194; 8195; 8196; 8197; 8198; 8199; 8200;
   8201; 8202; 8232; 8233; 8239; 8287; 12288
  ].

Definition is_high_space (cp : Z) : bool := bool_decide (cp ∈ high_spaces).

(** The ranges, bounds included, of the code points from U+0080 on that
    [repr] writes as an escape: controls, formats, separators other than
    the ASCII space, surrogates, private use and unassigned ones. *)
Definition unprintable_ranges : list (Z * Z) :=
  [
   (128, 160); (173, 173); (888, 889); (896, 899); (907, 907); (909, 909);
   (930, 930); (1328, 1328); (1367, 1368); (1419, 1420); (1424, 1424); (1480,
   1487); (1515, 1518); (1525, 1541); (1564, 1564); (1757, 1757); (1806,
   1807); (1867, 1868); (1970, 1983); (2043, 2044); (2094, 2095); (2111,
   2111); (2140, 2141); (2143, 2143); (2155, 2159); (2191, 2199); (2274,
   2274); (2436, 2436); (2445, 2446); (2449, 2450); (2473, 2473); (2481,
   2481); (2483, 2485); (2490, 2491); (2501, 2502); (2505, 2506); (2511,
   2518); (2520, 2523); (2526, 2526); (2532, 2533); (2559, 2560); (2564,
   2564); (2571, 2574); (2577, 2578); (2601, 2601); (2609, 2609); (2612,
   2612); (2615, 2615); (2618, 2619); (2621, 2621); (2627, 2630); (2633,
   2634); (2638, 2640); (2642, 2648); (2653, 2653); (2655, 2661); (2679,
   2688); (2692, 2692); (2702, 2702); (2706, 2706); (2729, 2729); (2737,
   2737); (2740, 2740); (2746, 2747); (2758, 2758); (2762, 2762); (2766,
   2767); (2769, 2783); (2788, 2789); (2802, 2808); (2816, 2816); (2820,
   2820); (2829, 2830); (2833, 2834); (2857, 2857); (2865, 2865); (2868,
   2868); (2874, 2875); (2885, 2886); (2889, 2890); (2894, 2900); (2904,
   2907); (2910, 2910); (2916, 2917); (2936, 2945); (2948, 2948); (2955,
   2957); (2961, 2961); (2966, 2968); (2971, 2971); (2973, 2973); (2976,
   2978); (2981, 2983); (2987, 2989); (3002, 3005); (3011, 3013); (3017,
   3017); (3022, 3023); (3025, 3030); (3032, 3045); (3067, 3071); (3085,
   3085); (3089, 3089); (3113, 3113); (3130, 3131); (3141, 3141); (3145,
   3145); (3150, 3156); (3159, 3159); (3163, 3164); (3166, 3167); (3172,
   3173); (3184, 3190); (3213, 3213); (3217, 3217); (3241, 3241); (3252,
   3252); (3258, 3259); (3269, 3269); (3273, 3273); (3278, 3284); (3287,
   3292); (3295, 3295); (3300, 3301); (3312, 3312); (3315, 3327); (3341,
   3341); (3345, 3345); (3397, 3397); (3401, 3401); (3408, 3411); (3428,
   3429); (3456, 3456); (3460, 3460); (3479, 3481); (3506, 3506); (3516,
   3516); (3518, 3519); (3527, 3529); (3531, 3534); (3541, 3541); (3543,
   3543); (3552, 3557); (3568, 3569); (3573, 3584); (3643, 3646); (3676,
   3712); (3715, 3715); (3717, 3717); (3723, 3723); (3748, 3748); (3750,
   3750); (3774, 3775); (3781, 3781); (3783, 3783); (3790, 3791); (3802,
   3803); (3808, 3839); (3912, 3912); (3949, 3952); (3992, 3992); (4029,
   4029); (4045, 4045); (4059, 4095); (4294, 4294); (4296, 4300); (4302,
   4303); (4681, 4681); (4686, 4687); (4695, 4695); (4697, 4697); (4702,
   4703); (4745, 4745); (4750, 4751); (4785, 4785); (4790, 4791); (4799,
   4799); (4801, 4801); (4806, 4807); (4823, 4823); (4881, 4881); (4886,
   4887); (4955, 4956); (4989, 4991); (5018, 5023); (5110, 5111); (5118,
   5119); (5760, 5760); (5789, 5791); (5881, 5887); (5910, 5918); (5943,
   5951); (5972, 5983); (5997, 5997); (6001, 6001); (6004, 6015); (6110,
   6111); (6122, 6127); (6138, 6143); (6158, 6158); (6170, 6175); (6265,
   6271); (6315, 6319); (6390, 6399); (6431, 6431); (6444, 6447); (6460,
   6463); (6465, 6467); (6510, 6511); (6517, 6527); (6572, 6575); (6602,
   6607); (6619, 6621); (6684, 6685); (6751, 6751); (6781, 6782); (6794,
   6799); (6810, 6815); (6830, 6831); (6863, 6911); (6989, 6991); (7039,
   7039); (7156, 7163); (7224, 7226); (7242, 7244); (7305, 7311); (7355,
   7356); (7368, 7375); (7419, 7423); (7958, 7959); (7966, 7967); (8006,
   8007); (8014, 8015); (8024, 8024); (8026, 8026); (8028, 8028); (8030,
   8030); (8062, 8063); (8117, 8117); (8133, 8133); (8148, 8149); (8156,
   8156); (8176, 8177); (8181, 8181); (8191, 8207); (8232, 8239); (8287,
   8303); (8306, 8307); (8335, 8335); (8349, 8351); (8385, 8399); (8433,
   8447); (8588, 8591); (9255, 9279); (9291, 9311); (11124, 11125); (11158,
   11158); (11508, 11512); (11558, 11558); (11560, 11564); (11566, 11567);
   (11624, 11630); (11633, 11646); (11671, 11679); (11687, 11687); (11695,
   11695); (11703, 11703); (11711, 11711); (11719, 11719); (11727, 11727);
   (11735, 11735); (11743, 11743); (11870, 11903); (11930, 11930); (12020,
   12031); (12246, 12271); (12284, 12288); (12352, 12352); (12439, 12440);
   (12544, 12548); (12592, 12592); (12687, 12687); (12772, 12783); (12831,
   12831); (42125, 42127); (42183, 42191); (42540, 42559); (42744, 42751);
   (42955, 42959); (42962, 42962); (42964, 42964); (42970, 42993); (43053,
   43055); (43066, 43071); (43128, 43135); (43206, 43213); (43226, 43231);
   (43348, 43358); (43389, 43391); (43470, 43470); (43482, 43485); (43519,
   43519); (43575, 43583); (43598, 43599); (43610, 43611); (43715, 43738);
   (43767, 43776); (43783, 43784); (43791, 43792); (43799, 43807); (43815,
   43815); (43823, 43823); (43884, 43887); (44014, 44015); (44026, 44031);
   (55204, 55215); (55239, 55242); (55292, 63743); (64110, 64111); (64218,
   64255); (64263, 64274); (64280, 64284); (64311, 64311); (64317, 64317);
   (64319, 64319); (64322, 64322); (64325, 64325); (64451, 64466); (64912,
   64913); (64968, 64974); (64976, 65007); (65050, 65055); (65107, 65107);
   (65127, 65127); (65132, 65135); (65141, 65141); (65277, 65280); (65471,
   65473); (65480, 65481); (65488, 65489); (65496, 65497); (65501, 65503);
   (65511, 65511); (65519, 65531); (65534, 65535); (65548, 65548); (65575,
   65575); (65595, 65595); (65598, 65598); (65614, 65615); (65630, 65663);
   (65787, 65791); (65795, 65798); (65844, 65846); (65935, 65935); (65949,
   65951); (65953, 65999); (66046, 66175); (66205, 66207); (66257, 66271);
   (66300, 66303); (66340, 66348); (66379, 66383); (66427, 66431); (66462,
   66462); (66500, 66503); (66518, 66559); (66718, 66719); (66730, 66735);
   (66772, 66775); (66812, 66815); (66856, 66863); (66916, 66926); (66939,
   66939); (66955, 66955); (66963, 66963); (66966, 66966); (66978, 66978);
   (66994, 66994); (67002, 67002); (67005, 67071); (67383, 67391); (67414,
   67423); (67432, 67455); (67462, 67462); (67505, 67505); (67515, 67583);
   (67590, 67591); (67593, 67593); (67638, 67638); (67641, 67643); (67645,
   67646); (67670, 67670); (67743, 67750); (67760, 67807); (67827, 67827);
   (67830, 67834); (67868, 67870); (67898, 67902); (67904, 67967); (68024,
   68027); (68048, 68049); (68100, 68100); (68103, 68107); (68116, 68116);
   (68120, 68120); (68150, 68151); (68155, 68158); (68169, 68175); (68185,
   68191); (68256, 68287); (68327, 68330); (68343, 68351); (68406, 68408);
   (68438, 68439); (68467, 68471); (68498, 68504); (68509, 68520); (68528,
   68607); (68681, 68735); (68787, 68799); (68851, 68857); (68904, 68911);
   (68922, 69215); (69247, 69247); (69290, 69290); (69294, 69295); (69298,
   69375); (69416, 69423); (69466, 69487); (69514, 69551); (69580, 69599);
   (69623, 69631); (69710, 69713); (69750, 69758); (69821, 69821); (69827,
   69839); (69865, 69871); (69882, 69887); (69941, 69941); (69960, 69967);
   (70007, 70015); (70112, 70112); (70133, 70143); (70162, 70162); (70207,
   70271); (70279, 70279); (70281, 70281); (70286, 70286); (70302, 70302);
   (70314, 70319); (70379, 70383); (70394, 70399); (70404, 70404); (70413,
   70414); (70417, 70418); (70441, 70441); (70449, 70449); (70452, 70452);
   (70458, 70458); (70469, 70470); (70473, 70474); (70478, 70479); (70481,
   70486); (70488, 70492); (70500, 70501); (70509, 70511); (70517, 70655);
   (70748, 70748); (70754, 70783); (70856, 70863); (70874, 71039); (71094,
   71095); (71134, 71167); (71237, 71247); (71258, 71263); (71277, 71295);
   (71354, 71359); (71370, 71423); (71451, 71452); (71468, 71471); (71495,
   71679); (71740, 71839); (71923, 71934); (71943, 71944); (71946, 71947);
   (71956, 71956); (71959, 71959); (71990, 71990); (71993, 71994); (72007,
   72015); (72026, 72095); (72104, 72105); (72152, 72153); (72165, 72191);
   (72264, 72271); (72355, 72367); (72441, 72703); (72713, 72713); (72759,
   72759); (72774, 72783); (72813, 72815); (72848, 72849); (72872, 72872);
   (72887, 72959); (72967, 72967); (72970, 72970); (73015, 73017); (73019,
   73019); (73022, 73022); (73032, 73039); (73050, 73055); (73062, 73062);
   (73065, 73065); (73103, 73103); (73106, 73106); (73113, 73119); (73130,
   73439); (73465, 73647); (73649, 73663); (73714, 73726); (74650, 74751);
   (74863, 74863); (74869, 74879); (75076, 77711); (77811, 77823); (78895,
   82943); (83527, 92159); (92729, 92735); (92767, 92767); (92778, 92781);
   (92863, 92863); (92874, 92879); (92910, 92911); (92918, 92927); (92998,
   93007); (93018, 93018); (93026, 93026); (93048, 93052); (93072, 93759);
   (93851, 93951); (94027, 94030); (94088, 94094); (94112, 94175); (94181,
   94191); (94194, 94207); (100344, 100351); (101590, 101631); (101641,
   110575); (110580, 110580); (110588, 110588); (110591, 110591); (110883,
   110927); (110931, 110947); (110952, 110959); (111356, 113663); (113771,
   113775); (113789, 113791); (113801, 113807); (113818, 113819); (113824,
   118527); (118574, 118575); (118599, 118607); (118724, 118783); (119030,
   119039); (119079, 119080); (119155, 119162); (119275, 119295); (119366,
   119519); (119540, 119551); (119639, 119647); (119673, 119807); (119893,
   119893); (119965, 119965); (119968, 119969); (119971, 119972); (119975,
   119976); (119981, 119981); (119994, 119994); (119996, 119996); (120004,
   120004); (120070, 120070); (120075, 120076); (120085, 120085); (120093,
   120093); (120122, 120122); (120127, 120127); (120133, 120133); (120135,
   120137); (120145, 120145); (120486, 120487); (120780, 120781); (121484,
   121498); (121504, 121504); (121520, 122623); (122655, 122879); (122887,
   122887); (122905, 122906); (122914, 122914); (122917, 122917); (122923,
   123135); (123181, 123183); (123198, 123199); (123210, 123213); (123216,
   123535); (123567, 123583); (123642, 123646); (123648, 124895); (124903,
   124903); (124908, 124908); (124911, 124911); (124927, 124927); (125125,
   125126); (125143, 125183); (125260, 125263); (125274, 125277); (125280,
   126064); (126133, 126208); (126270, 126463); (126468, 126468); (126496,
   126496); (126499, 126499); (126501, 126502); (126504, 126504); (126515,
   126515); (126520, 126520); (126522, 126522); (126524, 126529); (126531,
   126534); (126536, 126536); (126538, 126538); (126540, 126540); (126544,
   126544); (126547, 126547); (126549, 126550); (126552, 126552); (126554,
   126554); (126556, 126556); (126558, 126558); (126560, 126560); (126563,
   126563); (126565, 126566); (126571, 126571); (126579, 126579); (126584,
   126584); (126589, 126589); (126591, 126591); (126602, 126602); (126620,
   126624); (126628, 126628); (126634, 126634); (126652, 126703); (126706,
   126975); (127020, 127023); (127124, 127135); (127151, 127152); (127168,
   127168); (127184, 127184); (127222, 127231); (127406, 127461); (127491,
   127503); (127548, 127551); (127561, 127567); (127570, 127583); (127590,
   127743); (128728, 128732); (128749, 128751); (128765, 128767); (128884,
   128895); (128985, 128991); (129004, 129007); (129009, 129023); (129036,
   129039); (129096, 129103); (129114, 129119); (129160, 129167); (129198,
   129199); (129202, 129279); (129620, 129631); (129646, 129647); (129653,
   129655); (129661, 129663); (129671, 129679); (129709, 129711); (129723,
   129727); (129734, 129743); (129754, 129759); (129768, 129775); (129783,
   129791); (129939, 129939); (129995, 130031); (130042, 131071); (173792,
   173823); (177977, 177983); (178206, 178207); (183970, 183983); (191457,
   194559); (195102, 196607); (201547, 917759); (918000, 1114111)
  ].

Definition is_printable (cp : Z) : bool :=
  if cp <? 128 then (32 <=? cp) && (cp <? 127)
  else negb (existsb (fun r => (r.1 <=? cp) && (cp <=? r.2)) unprintable_ranges).

(** What [float] does to a string before it reads it: a code point up to
    U+007E stays, a white space above becomes a space, a decimal digit of
    any script becomes its ASCII digit.  [None]: the string has another
    character, and cannot be a number. *)
Definition to_ascii_char (cp : Z) : option ascii :=
  if cp <? 127 then Some (char_of cp)
  else if is_high_space cp then Some " "%char
  else (fun d => char_of (48 + d)) <$> decimal_value cp.

Definition to_ascii_text (s : string) : option (list ascii) :=
  code_points s ≫= mapM to_ascii_char.

(** Lower-case hexadecimal digits of [n], [width] of them. *)
Fixpoint hex (width : nat) (n : Z) : list ascii :=
  match width with
  | O => []
  | S w =>
      let d := n mod 16 in
      hex w (n / 16) ++ [char_of (if d <? 10 then 48 + d else 87 + d)]
  end.

(** One character of [repr(s)] inside the quote [quote]. *)
Definition repr_char (quote : Z) (cp : Z) : list ascii :=
  if bool_decide (cp = quote) || bool_decide (cp = 92) then
    ["\"%char; char_of cp]
  else if bool_decide (cp = 9) then ["\"%char; "t"%char]
  else if bool_decide (cp = 10) then ["\"%char; "n"%char]
  else if bool_decide (cp = 13) then ["\"%char; "r"%char]
  else if is_printable cp then char_of <$> utf8_encode cp
  else if cp <? 256 then "\"%char :: "x"%char :: hex 2 cp
  else if cp <? 65536 then "\"%char :: "u"%char :: hex 4 cp
  else "\"%char :: "U"%char :: hex 8 cp.

(** [repr(s)]: single quotes, or double quotes when [s] holds a single
    quote and no double quote. *)
Definition repr (s : string) : string :=
  match code_points s with
  | Some cps =>
      let quote :=
        if bool_decide (39 ∈ cps) && negb (bool_decide (34 ∈ cps)) then 34 else 39 in
      string_of_list_ascii
        (char_of quote :: concat (repr_char quote <$> cps) ++ [char_of quote])
  | None => "'" +:+ s +:+ "'"
  end.

End Unicode.

(* ===================================================================== *)
(** * Python floats *)
(* ===================================================================== *)

Module PyFloat.

(** A Python [float] is a binary64 number: 53 bits of precision,
    exponents below 1024. *)
Definition prec : Z := 53.
Definition emax : Z := 1024.

Definition float : Type := spec_float.

Definition pos_zero : float := S754_zero false.
Definition one : float := S754_finite false 4503599627370496 (-52).

(** [x * y] on two floats. *)
Definition mul (x y : float) : float := SFmul prec emax x y.

(** The float nearest to the rational [n / d] (ties to even), signed by
    [neg]; an overflow gives an infinity. *)
Definition of_ratio (neg : bool) (n : Z) (d : positive) : float :=
  match n with
  | Zpos _ =>
      let '(m, e, l) := SFdiv_core_binary prec emax n 0 (Zpos d) 0 in
      binary_round_aux prec emax neg m e l
  | _ => S754_zero neg
  end.

(** The float nearest to the integer [z]; an infinity when [z] is out of
    the range of binary64. *)
Definition of_Z (z : Z) : float := binary_normalize prec emax z 0 false.

(** The float nearest to [m * 10 ^ e] for a decimal literal. *)
Definition of_decimal (neg : bool) (m : Z) (e : Z) : float :=
  if 0 <=? e then of_ratio neg (m * 10 ^ e) 1
  else of_ratio neg m (Z.to_pos (10 ^ (- e))).

(** Integer quotient [a / b] rounded to nearest, ties to even. *)
Definition div_half_even (a b : Z) : Z :=
  let q := a / b in
  let r := a mod b in
  match 2 * r ?= b with
  | Lt => q
  | Gt => q + 1
  | Eq => if Z.even q then q else q + 1
  end.

(** [round(x, 2)]: the exact value of [x] is rounded half-even to two
    decimal places, and the decimal result is converted back to the
    nearest float; NaN, infinities and zeros round to themselves. *)
Definition round2 (x : float) : float :=
  match x with
  | S754_finite s m e =>
      let hundredths :=
        if 0 <=? e then Zpos m * 2 ^ e * 100
        else div_half_even (Zpos m * 100) (2 ^ (- e)) in
      of_ratio s hundredths 100
  | _ => x
  end.

(** [bool(x)] for a float: everything but the two zeros. *)
Definition truthy (x : float) : bool :=
  match x with
  | S754_zero _ => false
  | _ => true
  end.

(** ** [float(s)] on a string

    The syntax CPython accepts: optional underscores between digits,
    surrounding white space, then [inf], [infinity] or [nan] in any case,
    or a decimal literal with an optional fraction and exponent, each with
    an optional sign.  The string is first brought to ASCII by
    [Unicode.to_ascii_text], so that the digits and the white space of
    any script are read. *)

Definition is_space (c : ascii) : bool :=
  let n := Z.of_nat (nat_of_ascii c) in
  ((9 <=? n) && (n <=? 13)) || (n =? 32).

Definition digit_of (c : ascii) : option Z :=
  let n := Z.of_nat (nat_of_ascii c) in
  if (48 <=? n) && (n <=? 57) then Some (n - 48) else None.

Definition is_digit (c : ascii) : bool := bool_decide (is_Some (digit_of c)).

Definition is_underscore (c : ascii) : bool := bool_decide (c = "_"%char).

(** Underscores are dropped when each stands between two digits; any
    other underscore makes the string invalid. *)
Fixpoint drop_underscores (prev : ascii) (s : list ascii) : option (list ascii) :=
  match s with
  | [] => if is_underscore prev then None else Some []
  | c :: s' =>
      if is_underscore c then
        if is_digit prev then drop_underscores c s' else None
      else if is_underscore prev && negb (is_digit c) then None
      else cons c <$> drop_underscores c s'
  end.

Fixpoint lstrip (s : list ascii) : list ascii :=
  match s with
  | c :: s' => if is_space c then lstrip s' else s
  | [] => []
  end.
Definition rstrip (s : list ascii) : list ascii := reverse (lstrip (reverse s)).

Definition lower (c : ascii) : ascii :=
  let n := nat_of_ascii c in
  if ((65 <=? n) && (n <=? 90))%nat then ascii_of_nat (n + 32) else c.

(** [s] starts with the lower-case word [w], compared without case. *)
Fixpoint starts_with_ci (w s : list ascii) : bool :=
  match w, s with
  | [], _ => true
  | a :: w', c :: s' => bool_decide (a = lower c) && starts_with_ci w' s'
  | _ :: _, [] => false
  end.

Definition read_sign (s : list ascii) : bool * list ascii :=
  match s with
  | "-"%char :: s' => (true, s')
  | "+"%char :: s' => (false, s')
  | _ => (false, s)
  end.

Definition parse_inf_or_nan (s : list ascii) : option (float * list ascii) :=
  let '(neg, p) := read_sign s in
  if starts_with_ci (list_ascii_of_string "inf") p then
    let p3 := drop 3 p in
    Some (S754_infinity neg,
          if starts_with_ci (list_ascii_of_string "inity") p3 then drop 5 p3 else p3)
  else if starts_with_ci (list_ascii_of_string "nan") p then
    Some (S754_nan, drop 3 p)
  else None.

(** Reads a run of decimal digits onto the accumulator [acc]; returns the
    number read, how many digits there were, and the rest. *)
Fixpoint read_digits (acc : Z) (count : Z) (s : list ascii) : Z * Z * list ascii :=
  match s with
  | c :: s' =>
      match digit_of c with
      | Some d => read_digits (10 * acc + d) (count + 1) s'
      | None => (acc, count, s)
      end
  | [] => (acc, count, s)
  end.

Definition is_exp_mark (c : ascii) : bool :=
  bool_decide (c = "e"%char) || bool_decide (c = "E"%char).

(** The longest decimal literal at the head of [s], correctly rounded, and
    what follows it.  An exponent mark without digits is not part of the
    literal. *)
Definition parse_decimal (s : list ascii) : option (float * list ascii) :=
  let '(neg, p) := read_sign s in
  let '(int_part, n_int, p) := read_digits 0 0 p in
  let '(mant, n_frac, p) :=
    match p with
    | "."%char :: q => read_digits int_part 0 q
    | _ => (int_part, 0, p)
    end in
  if n_int + n_frac =? 0 then None
  else
    let '(e, p) :=
      match p with
      | c :: q =>
          if is_exp_mark c then
            let '(eneg, q1) := read_sign q in
            let '(ev, n_exp, q2) := read_digits 0 0 q1 in
            if n_exp =? 0 then (0, p) else (if eneg then - ev else ev, q2)
          else (0, p)
      | [] => (0, p)
      end in
    Some (of_decimal neg mant (e - n_frac), p).

(** [float(s)]; [None] stands for the [ValueError] CPython raises. *)
Definition of_string (s : string) : option float :=
  text ← Unicode.to_ascii_text s;
  s1 ← drop_underscores "000"%char text;
  match rstrip (lstrip s1) with
  | [] => None
  | s2 =>
      match parse_inf_or_nan s2 with
      | Some (f, rest) => if rest is [] then Some f else None
      | None =>
          match parse_decimal s2 with
          | Some (f, []) => Some f
          | _ => None
          end
      end
  end.

End PyFloat.

(* ===================================================================== *)
(** * Python values, exceptions and the operations on parsed JSON *)
(* ===================================================================== *)

Module Py.

(** ** Exceptions

    Every exception below derives from [Exception], which is what the
    handlers' [except Exception as e] catches.  [exn_msg] is [str(e)]. *)

Inductive exn_class : Type :=
| KeyError
| TypeError
| IndexError
| AttributeError
| ValueError
| OverflowError
| LibraryError (name : string).   (* raised inside requests / json *)

Record exn : Type := Exn { exn_class_of : exn_class; exn_msg : string }.

Definition str_exn (e : exn) : string := exn_msg e.

(** A computation that returns a value or raises. *)
Inductive result (A : Type) : Type :=
| Ok (a : A)
| Raise (e : exn).
Arguments Ok {A} a.
Arguments Raise {A} e.

#[global] Instance result_ret : MRet result := fun A a => Ok a.
#[global] Instance result_bind : MBind result := fun A B f r =>
  match r with
  | Ok a => f a
  | Raise e => Raise e
  end.
#[global] Instance result_fmap : FMap result := fun A B f r =>
  match r with
  | Ok a => Ok (f a)
  | Raise e => Raise e
  end.

(** ** JSON data, as [response.json()] builds it *)

#[warnings="-register-all"] Inductive json : Type :=
| JNull                             (* None *)
| JBool (b : bool)
| JInt (z : Z)
| JFloat (f : PyFloat.float)
| JStr (s : string)
| JList (l : list json)
| JObj (m : gmap string json).      (* dict with str keys *)

Definition type_name (d : json) : string :=
  match d with
  | JNull => "NoneType"
  | JBool _ => "bool"
  | JInt _ => "int"
  | JFloat _ => "float"
  | JStr _ => "str"
  | JList _ => "list"
  | JObj _ => "dict"
  end.

(** [repr(k)] for a string. *)
Definition repr_str (k : string) : string := Unicode.repr k.

Definition not_subscriptable (d : json) : exn :=
  Exn TypeError ("'" +:+ type_name d +:+ "' object is not subscriptable").

(** [d[k]] with a string [k]. *)
Definition getitem_str (d : json) (k : string) : result json :=
  match d with
  | JObj m =>
      match m !! k with
      | Some v => Ok v
      | None => Raise (Exn KeyError (repr_str k))
      end
  | JList _ =>
      Raise (Exn TypeError "list indices must be integers or slices, not str")
  | JStr _ =>
      Raise (Exn TypeError "string indices must be integers, not 'str'")
  | _ => Raise (not_subscriptable d)
  end.

(** Position of index [i] in a sequence of length [len]; negative indices
    count from the end. *)
Definition seq_index (len : nat) (i : Z) : option nat :=
  let n := Z.of_nat len in
  if (0 <=? i) && (i <? n) then Some (Z.to_nat i)
  else if (- n <=? i) && (i <? 0) then Some (Z.to_nat (n + i))
  else None.

(** [d[i]] with an integer [i]. *)
Definition getitem_int (d : json) (i : Z) : result json :=
  match d with
  | JList l =>
      match seq_index (length l) i ≫= (l !!.) with
      | Some v => Ok v
      | None => Raise (Exn IndexError "list index out of range")
      end
  | JStr s =>
      let cs := list_ascii_of_string s in
      match seq_index (length cs) i ≫= (cs !!.) with
      | Some c => Ok (JStr (String c EmptyString))
      | None => Raise (Exn IndexError "string index out of range")
      end
  | JObj _ => Raise (Exn KeyError (pretty i))
  | _ => Raise (not_subscriptable d)
  end.

(** [d.get(k)]: only a dict has the method; a missing key gives [None]. *)
Definition dict_get (d : json) (k : string) : result json :=
  match d with
  | JObj m => Ok (default JNull (m !! k))
  | _ =>
      Raise (Exn AttributeError
               ("'" +:+ type_name d +:+ "' object has no attribute 'get'"))
  end.

(** The items a [for] loop visits in [d[:n]].  Slicing a dict looks the
    slice object up as a key, and a slice cannot be hashed. *)
Definition slice_to (d : json) (n : nat) : result (list json) :=
  match d with
  | JList l => Ok (take n l)
  | JStr s =>
      Ok ((fun c => JStr (String c EmptyString))
            <$> take n (list_ascii_of_string s))
  | JObj _ => Raise (Exn TypeError "unhashable type: 'slice'")
  | _ => Raise (not_subscriptable d)
  end.

(** [bool(d)], the test of [if d:]. *)
Definition truthy (d : json) : bool :=
  match d with
  | JNull => false
  | JBool b => b
  | JInt z => negb (z =? 0)
  | JFloat f => PyFloat.truthy f
  | JStr s => negb (bool_decide (s = ""))
  | JList l => negb (bool_decide (l = []))
  | JObj m => negb (bool_decide (m = ∅))
  end.

(** [float(z)] for an [int]. *)
Definition float_of_int (z : Z) : result PyFloat.float :=
  match PyFloat.of_Z z with
  | S754_infinity _ =>
      Raise (Exn OverflowError "int too large to convert to float")
  | f => Ok f
  end.

(** [a * r] with a float on the left. *)
Definition float_mul (a : PyFloat.float) (r : json) : result PyFloat.float :=
  match r with
  | JFloat f => Ok (PyFloat.mul a f)
  | JInt z => f ← float_of_int z; Ok (PyFloat.mul a f)
  | JBool b => Ok (PyFloat.mul a (if b then PyFloat.one else PyFloat.pos_zero))
  | JStr _ | JList _ =>
      Raise (Exn TypeError "can't multiply sequence by non-int of type 'float'")
  | _ =>
      Raise (Exn TypeError
               ("unsupported operand type(s) for *: 'float' and '"
                  +:+ type_name r +:+ "'"))
  end.

(** [float(s)] for a [str]. *)
Definition float_of_str (s : string) : result PyFloat.float :=
  match PyFloat.of_string s with
  | Some f => Ok f
  | None =>
      Raise (Exn ValueError ("could not convert string to float: " +:+ repr_str s))
  end.

End Py.

(* ===================================================================== *)
(** * Flask responses, the request, and the outbound call *)
(* ===================================================================== *)

Module Web.
Import Py.

(** What a view hands back to Flask. *)
Record http_response : Type :=
  { status : Z; mimetype : string; body : json }.

(** [jsonify(d)]: a 200 response carrying [d] as JSON. *)
Definition jsonify (d : json) : http_response :=
  {| status := 200; mimetype := "application/json"; body := d |}.

(** A view returning the pair [(response, code)]. *)
Definition with_status (r : http_response) (code : Z) : http_response :=
  {| status := code; mimetype := mimetype r; body := body r |}.

(** A dict display [{k1: v1, ..., kn: vn}]: a later key overwrites an
    earlier equal one. *)
Definition py_dict (items : list (string * json)) : gmap string json :=
  fold_left (fun m kv => <[kv.1 := kv.2]> m) items ∅.

(** [request.args]: the query pairs in order; [get] takes the first value
    of a key. *)
Definition query : Type := list (string * string).

Fixpoint args_lookup (args : query) (key : string) : option string :=
  match args with
  | [] => None
  | (k, v) :: rest => if bool_decide (k = key) then Some v else args_lookup rest key
  end.

Definition args_get (args : query) (key fallback : string) : string :=
  default fallback (args_lookup args key).

(** [os.getenv(key, default)]. *)
Definition getenv (env : gmap string string) (key fallback : string) : string :=
  default fallback (env !! key).

(** The object [requests.get] returns: the status code and what calling
    [.json()] on it does. *)
Record response : Type :=
  { status_code : Z; response_json : result json }.

(** A view is a program that may perform outbound GETs; each GET either
    raises or brings a [response]. *)
Inductive io (A : Type) : Type :=
| Return (a : A)
| Throw (e : exn)
| HttpGet (url : string) (k : result response → io A).
Arguments Return {A} a.
Arguments Throw {A} e.
Arguments HttpGet {A} url k.

Fixpoint io_bind {A B : Type} (f : A → io B) (p : io A) : io B :=
  match p with
  | Return a => f a
  | Throw e => Throw e
  | HttpGet url k => HttpGet url (fun r => io_bind f (k r))
  end.

#[global] Instance io_mret : MRet io := fun A a => Return a.
#[global] Instance io_mbind : MBind io := fun A B f p => io_bind f p.

(** A pure step inside a view. *)
Definition lift {A : Type} (r : result A) : io A :=
  match r with
  | Ok a => Return a
  | Raise e => Throw e
  end.

Definition requests_get (url : string) : io response := HttpGet url lift.

(** [try: p except Exception as e: h e]. *)
Fixpoint try_except {A : Type} (p : io A) (h : exn → io A) : io A :=
  match p with
  | Return a => Return a
  | Throw e => h e
  | HttpGet url k => HttpGet url (fun r => try_except (k r) h)
  end.

(** Running a view against the network [net]: the result, [Raise e] when
    [e] leaves the view function (Flask then takes over), and the outbound
    calls in order with what each brought back. *)
Definition network : Type := string → result response.
Definition trace : Type := list (string * result response).

Fixpoint run {A : Type} (net : network) (p : io A) : result A * trace :=
  match p with
  | Return a => (Ok a, [])
  | Throw e => (Raise e, [])
  | HttpGet url k =>
      let r := net url in
      let '(out, calls) := run net (k r) in (out, (url, r) :: calls)
  end.

End Web.

(* ===================================================================== *)
(** * The views of [app.py] *)
(* ===================================================================== *)

Module App.
Import Py Web.

Definition error_response (msg : string) (code : Z) : http_response :=
  with_status (jsonify (JObj (py_dict [("error", JStr msg)]))) code.

(** [except Exception as e: return jsonify({'error': str(e)}), 500], the
    handler of every [try] block of the file. *)
Definition caught (e : exn) : io http_response :=
  Return (error_response (str_exn e) 500).

Definition health : io http_response :=
  Return (jsonify (JObj (py_dict
    [("status", JStr "healthy"); ("message", JStr "Dashboard API is running")]))).

Definition health_root : io http_response :=
  Return (jsonify (JObj (py_dict
    [("status", JStr "healthy"); ("message", JStr "Dashboard API is running")]))).

(** ** [/api/weather] *)

(** The dict display of [get_weather], entries evaluated in order. *)
Definition weather_fields (data : json) : result json :=
  city ← getitem_str data "name";
  temperature ← (main ← getitem_str data "main"; getitem_str main "temp");
  description ← (weather ← getitem_str data "weather";
                 first ← getitem_int weather 0;
                 getitem_str first "description");
  humidity ← (main ← getitem_str data "main"; getitem_str main "humidity");
  wind_speed ← (wind ← getitem_str data "wind"; getitem_str wind "speed");
  Ok (JObj (py_dict
    [("city", city); ("temperature", temperature);
     ("description", description); ("humidity", humidity);
     ("wind_speed", wind_speed)])).

Definition weather_url (city api_key : string) : string :=
  "http://api.openweathermap.org/data/2.5/weather?q=" +:+ city
    +:+ "&appid=" +:+ api_key +:+ "&units=metric".

(** The [try] block of [get_weather]. *)
Definition get_weather_try (city api_key : string) : io http_response :=
  let url := weather_url city api_key in
  response ← requests_get url;
  data ← lift (response_json response);
  if status_code response =? 200 then
    fields ← lift (weather_fields data);
    Return (jsonify fields)
  else Return (error_response "City not found" 404).

Definition get_weather (args : query) (env : gmap string string)
  : io http_response :=
  let city := args_get args "city" "London" in
  let api_key := getenv env "OPENWEATHER_API_KEY" "" in
  if bool_decide (api_key = "") then
    Return (error_response "API key not configured" 500)
  else try_except (get_weather_try city api_key) caught.

(** ** [/api/currency] *)

(** [float(request.args.get('amount', 1))]. *)
Definition amount_arg (args : query) : result PyFloat.float :=
  match args_lookup args "amount" with
  | Some s => float_of_str s
  | None => float_of_int 1
  end.

Definition currency_url (from_currency : string) : string :=
  "https://api.exchangerate-api.com/v4/latest/" +:+ from_currency.

(** The [try] block of [convert_currency]. *)
Definition convert_currency_try
  (from_currency to_currency : string) (amount : PyFloat.float)
  : io http_response :=
  let url := currency_url from_currency in
  response ← requests_get url;
  data ← lift (response_json response);
  if status_code response =? 200 then
    rate ← lift (rates ← getitem_str data "rates"; dict_get rates to_currency);
    if truthy rate then
      converted_amount ← lift (float_mul amount rate);
      Return (jsonify (JObj (py_dict
        [("from", JStr from_currency); ("to", JStr to_currency);
         ("amount", JFloat amount);
         ("converted", JFloat (PyFloat.round2 converted_amount));
         ("rate", rate)])))
    else Return (error_response "Invalid currency code" 400)
  else Return (error_response "Unable to fetch exchange rates" 500).

Definition convert_currency (args : query) : io http_response :=
  let from_currency := args_get args "from" "USD" in
  let to_currency := args_get args "to" "EUR" in
  amount ← lift (amount_arg args);
  try_except (convert_currency_try from_currency to_currency amount) caught.

(** ** [/api/github/<username>] *)

(** The dict display of [get_github_stats]. *)
Definition github_fields (data : json) : result json :=
  username ← getitem_str data "login";
  name ← getitem_str data "name";
  bio ← getitem_str data "bio";
  public_repos ← getitem_str data "public_repos";
  followers ← getitem_str data "followers";
  following ← getitem_str data "following";
  avatar_url ← getitem_str data "avatar_url";
  profile_url ← getitem_str data "html_url";
  Ok (JObj (py_dict
    [("username", username); ("name", name); ("bio", bio);
     ("public_repos", public_repos); ("followers", followers);
     ("following", following); ("avatar_url", avatar_url);
     ("profile_url", profile_url)])).

Definition github_url (username : string) : string :=
  "https://api.github.com/users/" +:+ username.

Definition get_github_stats_try (username : string) : io http_response :=
  let url := github_url username in
  response ← requests_get url;
  data ← lift (response_json response);
  if status_code response =? 200 then
    fields ← lift (github_fields data);
    Return (jsonify fields)
  else Return (error_response "User not found" 404).

Definition get_github_stats (username : string) : io http_response :=
  try_except (get_github_stats_try username) caught.

(** ** [/api/ip-lookup] *)

(** The dict display of [ip_lookup]. *)
Definition ip_fields (data : json) : result json :=
  ip ← dict_get data "ip";
  city ← dict_get data "city";
  region ← dict_get data "region";
  country ← dict_get data "country_name";
  timezone ← dict_get data "timezone";
  org ← dict_get data "org";
  Ok (JObj (py_dict
    [("ip", ip); ("city", city); ("region", region); ("country", country);
     ("timezone", timezone); ("org", org)])).

Definition ip_url (ip : string) : string :=
  if bool_decide (ip = "") then "https://ipapi.co/json/"
  else "https://ipapi.co/" +:+ ip +:+ "/json/".

Definition ip_lookup_try (ip : string) : io http_response :=
  let url := ip_url ip in
  response ← requests_get url;
  data ← lift (response_json response);
  if status_code response =? 200 then
    fields ← lift (ip_fields data);
    Return (jsonify fields)
  else Return (error_response "Unable to lookup IP" 500).

Definition ip_lookup (args : query) : io http_response :=
  let ip := args_get args "ip" "" in
  try_except (ip_lookup_try ip) caught.

(** ** [/api/news] *)

(** One turn of the loop of [get_news]: the dict appended for [article]. *)
Definition news_entry (article : json) : result json :=
  title ← getitem_str article "title";
  description ← getitem_str article "description";
  url ← getitem_str article "url";
  published_at ← getitem_str article "published_at";
  tags ← getitem_str article "tag_list";
  Ok (JObj (py_dict
    [("title", title); ("description", description); ("url", url);
     ("published_at", published_at); ("tags", tags)])).

(** [for article in items: articles.append({...})]. *)
Fixpoint news_loop (items : list json) (articles : list json)
  : result (list json) :=
  match items with
  | [] => Ok articles
  | article :: rest =>
      entry ← news_entry article;
      news_loop rest (articles ++ [entry])
  end.

Definition news_url : string := "https://dev.to/api/articles?tag=webdev&top=7".

Definition get_news_try : io http_response :=
  let url := news_url in
  response ← requests_get url;
  data ← lift (response_json response);
  if status_code response =? 200 then
    items ← lift (slice_to data 10);
    articles ← lift (news_loop items []);
    Return (jsonify (JObj (py_dict [("articles", JList articles)])))
  else Return (error_response "Unable to fetch news" 500).

Definition get_news : io http_response := try_except get_news_try caught.

(** ** Shapes of JSON bodies *)

(** [d] is an object that has every key of [keys]. *)
Definition has_keys (keys : list string) (d : json) : Prop :=
  ∃ m : gmap string json, d = JObj m ∧ Forall (fun k => is_Some (m !! k)) keys.

(** The field names of an object. *)
Definition fields_of (d : json) : option (gset string) :=
  match d with
  | JObj m => Some (dom m)
  | _ => None
  end.

(** ** The URL map

    The rules registered by the [@app.route(..., methods=['GET'])]
    decorators.  A static rule matches its own text; the rule
    [/api/github/<username>] matches one non-empty segment without a
    slash.  [None]: no view of [app.py] is bound to the path. *)

Fixpoint strip_prefix (p s : string) : option string :=
  match p, s with
  | EmptyString, _ => Some s
  | String a p', String b s' => if bool_decide (a = b) then strip_prefix p' s' else None
  | String _ _, EmptyString => None
  end.

Fixpoint has_slash (s : string) : bool :=
  match s with
  | EmptyString => false
  | String c s' => bool_decide (c = "/"%char) || has_slash s'
  end.

Definition route (path : string) (args : query) (env : gmap string string)
  : option (io http_response) :=
  if bool_decide (path = "/api/health") then Some health
  else if bool_decide (path = "/health") then Some health_root
  else if bool_decide (path = "/api/weather") then Some (get_weather args env)
  else if bool_decide (path = "/api/currency") then Some (convert_currency args)
  else if bool_decide (path = "/api/ip-lookup") then Some (ip_lookup args)
  else if bool_decide (path = "/api/news") then Some get_news
  else
    match strip_prefix "/api/github/" path with
    | Some username =>
        if bool_decide (username = "") || has_slash username then None
        else Some (get_github_stats username)
    | None => None
    end.

End App.

(* ===================================================================== *)
(** * Sample requests and upstream answers *)
(* ===================================================================== *)

Module Samples.
Import Py Web App.

(** A network whose every GET brings the same response. *)
Definition upstream (code : Z) (parsed : result json) : network :=
  fun _ => Ok {| status_code := code; response_json := parsed |}.

(** A network that is down. *)
Definition unreachable : network :=
  fun _ => Raise (Exn (LibraryError "ConnectionError") "connection refused").

(** What [.json()] raises on a body that is not JSON. *)
Definition not_json : result json :=
  Raise (Exn (LibraryError "JSONDecodeError")
             "Expecting value: line 1 column 1 (char 0)").

(** The body of a "not found" answer. *)
Definition not_found_body : json := JObj {[ "message" := JStr "Not Found" ]}.

(** The body of exchangerate-api with one rate. *)
Definition rates_body (r : json) : json :=
  JObj (py_dict [("base", JStr "USD");
                 ("rates", JObj (py_dict [("EUR", r)]))]).

(** The float 0.85. *)
Definition rate_085 : json := JFloat (PyFloat.of_decimal false 85 (-2)).

(** A JSON integer too large for a float. *)
Definition huge_rate : json := JInt (10 ^ 400).

Definition ten_dollars : query :=
  [("from", "USD"); ("to", "EUR"); ("amount", "10")].

Definition with_key : gmap string string :=
  {[ "OPENWEATHER_API_KEY" := "0123456789abcdef" ]}.

Definition empty_key : gmap string string :=
  {[ "OPENWEATHER_API_KEY" := "" ]}.

Definition other_key : gmap string string :=
  {[ "OPENWEATHER_API_KEY" := "fedcba9876543210" ]}.

(** A network that answers [r] at [url] and is down elsewhere. *)
Definition only_at (url : string) (r : result response) : network :=
  fun u => if bool_decide (u = url) then r else unreachable u.

(** An OpenWeatherMap body, trimmed to what [get_weather] reads. *)
Definition weather_body : json :=
  JObj (py_dict
    [("name", JStr "Paris");
     ("main", JObj (py_dict [("temp", JFloat (PyFloat.of_decimal false 215 (-1)));
                             ("humidity", JInt 60)]));
     ("weather", JList [JObj (py_dict [("description", JStr "clear sky")])]);
     ("wind", JObj (py_dict [("speed", JFloat (PyFloat.of_decimal false 36 (-1)))]))]).

(** A weather body whose [weather] list is empty. *)
Definition no_weather_body : json :=
  JObj (py_dict [("name", JStr "London");
                 ("main", JObj (py_dict [("temp", JInt 21)]));
                 ("weather", JList [])]).

(** A GitHub profile without name and bio. *)
Definition github_map : gmap string json :=
  py_dict
    [("login", JStr "octocat"); ("id", JInt 583231); ("name", JNull);
     ("bio", JNull); ("public_repos", JInt 8); ("followers", JInt 100);
     ("following", JInt 9);
     ("avatar_url", JStr "https://avatars.githubusercontent.com/u/583231");
     ("html_url", JStr "https://github.com/octocat")].

Definition github_body : json := JObj github_map.

(** A dev.to article, trimmed to the fields [get_news] reads plus one. *)
Definition article (n : Z) : json :=
  JObj (py_dict
    [("id", JInt n); ("title", JStr "Title"); ("description", JStr "Text");
     ("url", JStr "https://dev.to/a"); ("published_at", JStr "2024-01-01");
     ("tag_list", JList [JStr "webdev"])]).

End Samples.

(* ===================================================================== *)
(** * Properties of the views *)
(* ===================================================================== *)

Import Py Web App Samples.

(** ** The float model on known values *)

(** [round(2.675, 2) == 2.67]: the float 2.675 lies below the decimal. *)
Example round2_2675 :
  PyFloat.round2 (PyFloat.of_decimal false 2675 (-3)) =
    PyFloat.of_decimal false 267 (-2).
Proof. vm_compute. reflexivity. Qed.

(** [round(0.125, 2) == 0.12] and [round(0.375, 2) == 0.38]: exact ties
    go to the even digit. *)
Example round2_ties :
  PyFloat.round2 (PyFloat.of_decimal false 125 (-3)) =
    PyFloat.of_decimal false 12 (-2) ∧
  PyFloat.round2 (PyFloat.of_decimal false 375 (-3)) =
    PyFloat.of_decimal false 38 (-2).
Proof. split; vm_compute; reflexivity. Qed.

(** [round(10 * 0.85, 2) == 8.5]. *)
Example round2_conversion :
  PyFloat.round2 (PyFloat.mul (PyFloat.of_Z 10) (PyFloat.of_decimal false 85 (-2))) =
    PyFloat.of_decimal false 85 (-1).
Proof. vm_compute. reflexivity. Qed.

(** [float] on strings: [" 1_0.5e1 "] is 105.0, ["-InFiNiTy"] is the
    negative infinity, and ["abc"], [""], ["1e"], ["1__0"] are refused. *)
Example of_string_samples :
  PyFloat.of_string " 1_0.5e1 " = Some (PyFloat.of_Z 105) ∧
  PyFloat.of_string "-InFiNiTy" = Some (S754_infinity true) ∧
  PyFloat.of_string "0.1" = Some (S754_finite false 7205759403792794 (-56)) ∧
  PyFloat.of_string "abc" = None ∧
  PyFloat.of_string "" = None ∧
  PyFloat.of_string "1e" = None ∧
  PyFloat.of_string "1__0" = None.
Proof. repeat split; vm_compute; reflexivity. Qed.

(** [1.0 * 10**400] raises, [float(10**308)] does not. *)
Example float_of_int_range :
  float_of_int (10 ^ 400) =
    Raise (Exn OverflowError "int too large to convert to float") ∧
  (∃ f, float_of_int (10 ^ 308) = Ok f).
Proof. split; [vm_compute; reflexivity | eexists; vm_compute; reflexivity]. Qed.

(** Without an [amount] parameter the amount is [float(1)]. *)
Lemma amount_arg_default (args : query) :
  args_lookup args "amount" = None → amount_arg args = Ok PyFloat.one.
Proof. intros Hnone. unfold amount_arg. rewrite Hnone. reflexivity. Qed.

(** ** Running binds and [try] blocks *)

Section RunLemmas.
Context {A B : Type} (net : network).

Lemma run_bind (p : io A) (f : A → io B) :
  run net (p ≫= f) =
    match run net p with
    | (Ok a, t) => let '(out, t') := run net (f a) in (out, t ++ t')
    | (Raise e, t) => (Raise e, t)
    end.
Proof.
  unfold mbind, io_mbind.
  induction p as [a | e | url k IH]; simpl.
  - by destruct (run net (f a)).
  - done.
  - rewrite IH. destruct (run net (k (net url))) as [[a | e] t]; [|done].
    by destruct (run net (f a)).
Qed.

Lemma run_try_except (p : io A) (h : exn → io A) :
  run net (try_except p h) =
    match run net p with
    | (Ok a, t) => (Ok a, t)
    | (Raise e, t) => let '(out, t') := run net (h e) in (out, t ++ t')
    end.
Proof.
  induction p as [a | e | url k IH]; simpl.
  - done.
  - by destruct (run net (h e)).
  - rewrite IH. destruct (run net (k (net url))) as [[a | e] t]; [done|].
    by destruct (run net (h e)).
Qed.

End RunLemmas.

(** A [try] block guarded by [caught] turns a raised [e] into the 500
    answer and leaves a returned response alone. *)
Lemma run_try_caught (net : network) (p : io http_response) :
  run net (try_except p caught) =
    match run net p with
    | (Ok a, t) => (Ok a, t)
    | (Raise e, t) => (Ok (error_response (str_exn e) 500), t)
    end.
Proof.
  rewrite run_try_except.
  destruct (run net p) as [[a | e] t]; [done|].
  simpl. by rewrite app_nil_r.
Qed.

(** ** What each [try] block does, by the answer of the upstream *)

Ltac upstream_cases net url :=
  cbn; destruct (net url) as [resp | e]; cbn; [|done];
  destruct (response_json resp) as [data | e]; cbn; [|done];
  destruct (status_code resp =? 200); cbn; [|done].

Lemma run_get_weather_try (net : network) (city api_key : string) :
  run net (get_weather_try city api_key) =
    (match net (weather_url city api_key) with
     | Raise e => Raise e
     | Ok resp =>
         match response_json resp with
         | Raise e => Raise e
         | Ok data =>
             if status_code resp =? 200 then jsonify <$> weather_fields data
             else Ok (error_response "City not found" 404)
         end
     end,
     [(weather_url city api_key, net (weather_url city api_key))]).
Proof.
  unfold get_weather_try. upstream_cases net (weather_url city api_key).
  by destruct (weather_fields data).
Qed.

Lemma run_convert_currency_try
  (net : network) (from_currency to_currency : string) (amount : PyFloat.float) :
  run net (convert_currency_try from_currency to_currency amount) =
    (match net (currency_url from_currency) with
     | Raise e => Raise e
     | Ok resp =>
         match response_json resp with
         | Raise e => Raise e
         | Ok data =>
             if status_code resp =? 200 then
               match rates ← getitem_str data "rates"; dict_get rates to_currency with
               | Raise e => Raise e
               | Ok rate =>
                   if truthy rate then
                     match float_mul amount rate with
                     | Raise e => Raise e
                     | Ok converted_amount =>
                         Ok (jsonify (JObj (py_dict
                           [("from", JStr from_currency); ("to", JStr to_currency);
                            ("amount", JFloat amount);
                            ("converted", JFloat (PyFloat.round2 converted_amount));
                            ("rate", rate)])))
                     end
                   else Ok (error_response "Invalid currency code" 400)
               end
             else Ok (error_response "Unable to fetch exchange rates" 500)
         end
     end,
     [(currency_url from_currency, net (currency_url from_currency))]).
Proof.
  unfold convert_currency_try. upstream_cases net (currency_url from_currency).
  destruct (rates ← getitem_str data "rates"; dict_get rates to_currency)
    as [rate | e]; cbn; [|done].
  destruct (truthy rate); cbn; [|done].
  by destruct (float_mul amount rate).
Qed.

Lemma run_get_github_stats_try (net : network) (username : string) :
  run net (get_github_stats_try username) =
    (match net (github_url username) with
     | Raise e => Raise e
     | Ok resp =>
         match response_json resp with
         | Raise e => Raise e
         | Ok data =>
             if status_code resp =? 200 then jsonify <$> github_fields data
             else Ok (error_response "User not found" 404)
         end
     end,
     [(github_url username, net (github_url username))]).
Proof.
  unfold get_github_stats_try. upstream_cases net (github_url username).
  by destruct (github_fields data).
Qed.

Lemma run_ip_lookup_try (net : network) (ip : string) :
  run net (ip_lookup_try ip) =
    (match net (ip_url ip) with
     | Raise e => Raise e
     | Ok resp =>
         match response_json resp with
         | Raise e => Raise e
         | Ok data =>
             if status_code resp =? 200 then jsonify <$> ip_fields data
             else Ok (error_response "Unable to lookup IP" 500)
         end
     end,
     [(ip_url ip, net (ip_url ip))]).
Proof.
  unfold ip_lookup_try. upstream_cases net (ip_url ip).
  by destruct (ip_fields data).
Qed.

Lemma run_get_news_try (net : network) :
  run net get_news_try =
    (match net news_url with
     | Raise e => Raise e
     | Ok resp =>
         match response_json resp with
         | Raise e => Raise e
         | Ok data =>
             if status_code resp =? 200 then
               items ← slice_to data 10;
               articles ← news_loop items [];
               Ok (jsonify (JObj (py_dict [("articles", JList articles)])))
             else Ok (error_response "Unable to fetch news" 500)
         end
     end,
     [(news_url, net news_url)]).
Proof.
  unfold get_news_try. upstream_cases net news_url.
  destruct (slice_to data 10) as [items | e]; cbn; [|done].
  by destruct (news_loop items []).
Qed.

(** ** The views: what is answered, and which call was made *)

(** A view built as [try_except block caught] never lets an exception
    out. *)
Lemma try_caught_answers (net : network) (p : io http_response) :
  ∃ resp, fst (run net (try_except p caught)) = Ok resp.
Proof.
  rewrite run_try_caught. destruct (run net p) as [[a | e] t]; eauto.
Qed.

Lemma answer_try_caught (net : network) (p : io http_response) :
  fst (run net (try_except p caught)) =
    match fst (run net p) with
    | Ok a => Ok a
    | Raise e => Ok (error_response (str_exn e) 500)
    end.
Proof. rewrite run_try_caught. by destruct (run net p) as [[a | e] t]. Qed.

Lemma trace_try_caught (net : network) (p : io http_response) :
  snd (run net (try_except p caught)) = snd (run net p).
Proof. rewrite run_try_caught. by destruct (run net p) as [[a | e] t]. Qed.

Lemma run_get_weather_no_key (net : network) (args : query) (env : gmap string string) :
  getenv env "OPENWEATHER_API_KEY" "" = "" →
  run net (get_weather args env) =
    (Ok (error_response "API key not configured" 500), []).
Proof. intros Hkey. unfold get_weather. by rewrite Hkey. Qed.

Lemma run_get_weather_key (net : network) (args : query) (env : gmap string string) :
  getenv env "OPENWEATHER_API_KEY" "" ≠ "" →
  run net (get_weather args env) =
    run net (try_except
               (get_weather_try (args_get args "city" "London")
                                (getenv env "OPENWEATHER_API_KEY" "")) caught).
Proof. intros Hkey. unfold get_weather. by rewrite bool_decide_eq_false_2. Qed.

Lemma run_convert_currency (net : network) (args : query) :
  run net (convert_currency args) =
    match amount_arg args with
    | Raise e => (Raise e, [])
    | Ok amount =>
        run net (try_except
                   (convert_currency_try (args_get args "from" "USD")
                                         (args_get args "to" "EUR") amount) caught)
    end.
Proof.
  unfold convert_currency. rewrite run_bind.
  destruct (amount_arg args) as [amount | e]; simpl; [|done].
  by destruct (run net _).
Qed.

(** The one outbound call of each view. *)
Lemma trace_convert_currency (net : network) (args : query) :
  snd (run net (convert_currency args)) =
    match amount_arg args with
    | Raise _ => []
    | Ok _ =>
        [(currency_url (args_get args "from" "USD"),
          net (currency_url (args_get args "from" "USD")))]
    end.
Proof.
  rewrite run_convert_currency. destruct (amount_arg args); [|done].
  by rewrite trace_try_caught, run_convert_currency_try.
Qed.

Lemma trace_get_weather (net : network) (args : query) (env : gmap string string) :
  snd (run net (get_weather args env)) =
    if bool_decide (getenv env "OPENWEATHER_API_KEY" "" = "") then []
    else
      let url := weather_url (args_get args "city" "London")
                             (getenv env "OPENWEATHER_API_KEY" "") in
      [(url, net url)].
Proof.
  case_bool_decide as Hkey.
  - by rewrite run_get_weather_no_key.
  - by rewrite run_get_weather_key, trace_try_caught, run_get_weather_try.
Qed.

Lemma trace_get_github_stats (net : network) (username : string) :
  snd (run net (get_github_stats username)) =
    [(github_url username, net (github_url username))].
Proof.
  unfold get_github_stats. by rewrite trace_try_caught, run_get_github_stats_try.
Qed.

Lemma trace_ip_lookup (net : network) (args : query) :
  snd (run net (ip_lookup args)) =
    [(ip_url (args_get args "ip" ""), net (ip_url (args_get args "ip" "")))].
Proof. unfold ip_lookup. by rewrite trace_try_caught, run_ip_lookup_try. Qed.

Lemma trace_get_news (net : network) :
  snd (run net get_news) = [(news_url, net news_url)].
Proof. unfold get_news. by rewrite trace_try_caught, run_get_news_try. Qed.

(** ** C1: the currency conversion *)

(** C1 (as amended).  When the amount parameter parses to [amount]
    (default 1), the upstream answers 200 with a body whose ['rates'] map
    holds a truthy rate [r] for the target currency, and [amount * r]
    evaluates to [product], the view answers 200 with exactly the five
    fields [from], [to], [amount], [converted] and [rate], where
    [converted] is [round(product, 2)], [amount] the parsed amount, [rate]
    is [r], and [from] and [to] echo the query (defaults USD and EUR). *)
Theorem currency_conversion
  (net : network) (args : query) (url : string) (resp : response)
  (amount product : PyFloat.float) (data rates : gmap string json) (r : json) :
  amount_arg args = Ok amount →
  snd (run net (convert_currency args)) = [(url, Ok resp)] →
  status_code resp = 200 →
  response_json resp = Ok (JObj data) →
  data !! "rates" = Some (JObj rates) →
  rates !! args_get args "to" "EUR" = Some r →
  truthy r = true →
  float_mul amount r = Ok product →
  ∃ out : gmap string json,
    fst (run net (convert_currency args)) = Ok (jsonify (JObj out)) ∧
    status (jsonify (JObj out)) = 200 ∧
    out !! "converted" = Some (JFloat (PyFloat.round2 product)) ∧
    out !! "amount" = Some (JFloat amount) ∧
    out !! "rate" = Some r ∧
    out !! "from" = Some (JStr (args_get args "from" "USD")) ∧
    out !! "to" = Some (JStr (args_get args "to" "EUR")) ∧
    dom out = {[ "from"; "to"; "amount"; "converted"; "rate" ]}.
Proof.
  intros Hamount Htrace Hstatus Hjson Hrates Hrate Htruthy Hmul.
  rewrite trace_convert_currency, Hamount in Htrace.
  injection Htrace as _ Hnet.
  rewrite run_convert_currency, Hamount, run_try_caught,
    run_convert_currency_try, Hnet, Hjson, Hstatus.
  cbn. rewrite Hrates. cbn. rewrite Hrate. cbn. rewrite Htruthy, Hmul. cbn.
  eexists. split; [reflexivity|].
  repeat split; reflexivity.
Qed.

Lemma currency_conversion_witness :
  ∃ out : gmap string json,
    fst (run (upstream 200 (Ok (rates_body rate_085)))
             (convert_currency ten_dollars)) = Ok (jsonify (JObj out)) ∧
    status (jsonify (JObj out)) = 200 ∧
    out !! "converted" =
      Some (JFloat (PyFloat.round2
                      (PyFloat.mul (PyFloat.of_Z 10)
                                   (PyFloat.of_decimal false 85 (-2))))) ∧
    out !! "amount" = Some (JFloat (PyFloat.of_Z 10)) ∧
    out !! "rate" = Some rate_085 ∧
    out !! "from" = Some (JStr "USD") ∧
    out !! "to" = Some (JStr "EUR") ∧
    dom out = {[ "from"; "to"; "amount"; "converted"; "rate" ]}.
Proof.
  apply (currency_conversion
           (upstream 200 (Ok (rates_body rate_085))) ten_dollars
           (currency_url "USD")
           {| status_code := 200; response_json := Ok (rates_body rate_085) |}
           (PyFloat.of_Z 10)
           (PyFloat.mul (PyFloat.of_Z 10) (PyFloat.of_decimal false 85 (-2)))
           (py_dict [("base", JStr "USD");
                     ("rates", JObj (py_dict [("EUR", rate_085)]))])
           (py_dict [("EUR", rate_085)])
           rate_085); vm_compute; reflexivity.
Defined.

(** C1 as stated fails for a rate that is a non-zero JSON integer beyond
    the range of a float: [amount * r] raises [OverflowError], the [try]
    block catches it, and the answer is 500. *)
Lemma currency_conversion_overflow :
  truthy huge_rate = true ∧
  rates_body huge_rate =
    JObj (py_dict [("base", JStr "USD");
                   ("rates", JObj (py_dict [("EUR", huge_rate)]))]) ∧
  py_dict [("EUR", huge_rate)] !! args_get [] "to" "EUR" = Some huge_rate ∧
  amount_arg [] = Ok PyFloat.one ∧
  fst (run (upstream 200 (Ok (rates_body huge_rate))) (convert_currency [])) =
    Ok (error_response "int too large to convert to float" 500) ∧
  ¬ ∃ out : gmap string json,
      fst (run (upstream 200 (Ok (rates_body huge_rate))) (convert_currency [])) =
        Ok (jsonify (JObj out)).
Proof.
  repeat split; try (vm_compute; reflexivity).
  intros [out Hout]. vm_compute in Hout. discriminate Hout.
Qed.

(** ** C3: the weather view without an API key *)

(** C3.  When [OPENWEATHER_API_KEY] is unset or empty, [get_weather]
    answers 500 with [{error: 'API key not configured'}] whatever the
    query is, and it does so without any outbound call: the view is a
    bare [Return], and the trace of its run is empty on every network. *)
Theorem weather_without_api_key
  (net : network) (args : query) (env : gmap string string) :
  env !! "OPENWEATHER_API_KEY" = None ∨ env !! "OPENWEATHER_API_KEY" = Some "" →
  get_weather args env = Return (error_response "API key not configured" 500) ∧
  run net (get_weather args env) =
    (Ok (error_response "API key not configured" 500), []) ∧
  status (error_response "API key not configured" 500) = 500 ∧
  body (error_response "API key not configured" 500) =
    JObj {[ "error" := JStr "API key not configured" ]}.
Proof.
  intros Hkey.
  assert (getenv env "OPENWEATHER_API_KEY" "" = "") as Hget.
  { unfold getenv. by destruct Hkey as [-> | ->]. }
  split; [|split; [|split]].
  - unfold get_weather. by rewrite Hget.
  - by apply run_get_weather_no_key.
  - reflexivity.
  - reflexivity.
Qed.

Lemma weather_without_api_key_witness :
  get_weather [("city", "Paris")] empty_key =
    Return (error_response "API key not configured" 500) ∧
  run unreachable (get_weather [("city", "Paris")] empty_key) =
    (Ok (error_response "API key not configured" 500), []) ∧
  status (error_response "API key not configured" 500) = 500 ∧
  body (error_response "API key not configured" 500) =
    JObj {[ "error" := JStr "API key not configured" ]}.
Proof.
  apply (weather_without_api_key unreachable [("city", "Paris")] empty_key).
  right. vm_compute. reflexivity.
Defined.

(** ** C6: the health checks *)

(** C6.  The paths [/api/health] and [/health] are bound to views that
    answer 200 with the JSON content type and a body whose [status] field
    is ['healthy'], for every query, environment and network, and with no
    outbound call. *)
Theorem health_is_healthy
  (net : network) (args : query) (env : gmap string string) (path : string) :
  path = "/api/health" ∨ path = "/health" →
  ∃ (view : io http_response) (resp : http_response) (fields : gmap string json),
    route path args env = Some view ∧
    run net view = (Ok resp, []) ∧
    status resp = 200 ∧
    mimetype resp = "application/json" ∧
    body resp = JObj fields ∧
    fields !! "status" = Some (JStr "healthy").
Proof.
  intros [-> | ->].
  - exists health. do 2 eexists. repeat split; reflexivity.
  - exists health_root. do 2 eexists. repeat split; reflexivity.
Qed.

Lemma health_is_healthy_witness :
  ∃ (view : io http_response) (resp : http_response) (fields : gmap string json),
    route "/health" [("city", "Paris")] ∅ = Some view ∧
    run unreachable view = (Ok resp, []) ∧
    status resp = 200 ∧
    mimetype resp = "application/json" ∧
    body resp = JObj fields ∧
    fields !! "status" = Some (JStr "healthy").
Proof.
  apply (health_is_healthy unreachable [("city", "Paris")] ∅ "/health").
  right. reflexivity.
Defined.

(** ** C4: an upstream status other than 200 *)




(** ** C5: the news feed *)

Lemma news_entry_fields (a : json) :
  has_keys ["title"; "description"; "url"; "published_at"; "tag_list"] a →
  ∃ entry,
    news_entry a = Ok entry ∧
    fields_of entry =
      Some {[ "title"; "description"; "url"; "published_at"; "tags" ]}.
Proof.
  intros (m & -> & Hkeys).
  repeat (apply Forall_cons in Hkeys as [[? ?] Hkeys]).
  unfold news_entry. cbn. repeat (simplify_option_eq; cbn).
  eexists. split; reflexivity.
Qed.

Lemma news_loop_fields (items articles : list json) :
  Forall (has_keys ["title"; "description"; "url"; "published_at"; "tag_list"])
         items →
  ∃ entries,
    news_loop items articles = Ok (articles ++ entries) ∧
    Forall2 (fun a entry => news_entry a = Ok entry) items entries ∧
    Forall (fun entry =>
              fields_of entry =
                Some {[ "title"; "description"; "url"; "published_at"; "tags" ]})
           entries.
Proof.
  intros Hitems. revert articles.
  induction Hitems as [| a items Ha _ IH]; intros articles.
  - exists []. simpl. by rewrite app_nil_r.
  - destruct (news_entry_fields a Ha) as (entry & Hentry & Hfields).
    destruct (IH (articles ++ [entry])) as (entries & Hloop & Heach & Hall).
    exists (entry :: entries). simpl. rewrite Hentry. cbn.
    rewrite Hloop, <- app_assoc. repeat split; simpl; auto.
Qed.

(** C5.  When the upstream answers 200 with a list of articles that each
    have the keys [title], [description], [url], [published_at] and
    [tag_list], [get_news] answers 200 with a body [{articles: [...]}] of
    at most 10 entries (one per article among the first 10), and every
    entry is an object with exactly the five fields [title],
    [description], [url], [published_at] and [tags]. *)
Theorem news_at_most_ten
  (net : network) (url : string) (resp : response) (items : list json) :
  snd (run net get_news) = [(url, Ok resp)] →
  status_code resp = 200 →
  response_json resp = Ok (JList items) →
  Forall (has_keys ["title"; "description"; "url"; "published_at"; "tag_list"])
         items →
  ∃ articles : list json,
    fst (run net get_news) =
      Ok (jsonify (JObj {[ "articles" := JList articles ]})) ∧
    status (jsonify (JObj {[ "articles" := JList articles ]})) = 200 ∧
    (length articles ≤ 10)%nat ∧
    length articles = Nat.min 10 (length items) ∧
    Forall2 (fun a entry => news_entry a = Ok entry) (take 10 items) articles ∧
    Forall (fun entry =>
              fields_of entry =
                Some {[ "title"; "description"; "url"; "published_at"; "tags" ]})
           articles.
Proof.
  intros Htrace Hstatus Hjson Hitems.
  rewrite trace_get_news in Htrace. injection Htrace as _ Hnet.
  destruct (news_loop_fields (take 10 items) [])
    as (articles & Hloop & Heach & Hall).
  { by apply Forall_take. }
  exists articles.
  assert (length articles = Nat.min 10 (length items)) as Hlen.
  { rewrite <- (Forall2_length _ _ _ Heach). apply length_take. }
  split; [|repeat split; [lia | done | done | done]].
  unfold get_news.
  rewrite run_try_caught, run_get_news_try, Hnet, Hjson, Hstatus.
  cbn. by rewrite Hloop.
Qed.

Lemma news_at_most_ten_witness :
  ∃ articles : list json,
    fst (run (upstream 200 (Ok (JList (article <$> seqZ 1 12)))) get_news) =
      Ok (jsonify (JObj {[ "articles" := JList articles ]})) ∧
    status (jsonify (JObj {[ "articles" := JList articles ]})) = 200 ∧
    (length articles ≤ 10)%nat ∧
    length articles = Nat.min 10 (length (article <$> seqZ 1 12)) ∧
    Forall2 (fun a entry => news_entry a = Ok entry)
            (take 10 (article <$> seqZ 1 12)) articles ∧
    Forall (fun entry =>
              fields_of entry =
                Some {[ "title"; "description"; "url"; "published_at"; "tags" ]})
           articles.
Proof.
  apply (news_at_most_ten
           (upstream 200 (Ok (JList (article <$> seqZ 1 12)))) news_url
           {| status_code := 200;
              response_json := Ok (JList (article <$> seqZ 1 12)) |}).
  - reflexivity.
  - reflexivity.
  - reflexivity.
  - apply Forall_fmap, Forall_forall. intros n _.
    eexists. split; [reflexivity|].
    repeat apply Forall_cons_2; try apply Forall_nil_2; by eexists.
Defined.

(** ** C7: a weather body without one of its keys *)

Lemma weather_fields_missing (m : gmap string json) :
  m !! "name" = None ∨ m !! "main" = None ∨
  m !! "weather" = None ∨ m !! "wind" = None →
  ∃ e, weather_fields (JObj m) = Raise e.
Proof.
  intros Hmissing. unfold weather_fields. cbn.
  destruct (m !! "name") as [name|]; cbn; [|eauto].
  destruct (m !! "main") as [main|]; cbn; [|eauto].
  destruct (getitem_str main "temp"); cbn; [|eauto].
  destruct (m !! "weather") as [weather|]; cbn; [|eauto].
  destruct (getitem_int weather 0) as [first|]; cbn; [|eauto].
  destruct (getitem_str first "description"); cbn; [|eauto].
  destruct (getitem_str main "humidity"); cbn; [|eauto].
  destruct (m !! "wind") as [wind|]; cbn; [|eauto].
  destruct Hmissing as [? | [? | [? | ?]]]; discriminate.
Qed.

(** C7 (as amended).  When the upstream answers 200 with an object that
    lacks one of the keys [name], [main], [weather] or [wind], the field
    extraction of [get_weather] raises (the keys are read with [d[k]], not
    [d.get(k)]), and no success object is produced: the [try] block
    catches the exception and the view answers 500 with
    [{error: <message of the exception>}]. *)
Theorem weather_missing_key
  (net : network) (args : query) (env : gmap string string) (url : string)
  (resp : response) (m : gmap string json) :
  snd (run net (get_weather args env)) = [(url, Ok resp)] →
  status_code resp = 200 →
  response_json resp = Ok (JObj m) →
  m !! "name" = None ∨ m !! "main" = None ∨
  m !! "weather" = None ∨ m !! "wind" = None →
  ∃ e,
    weather_fields (JObj m) = Raise e ∧
    fst (run net (get_weather args env)) = Ok (error_response (str_exn e) 500) ∧
    ∀ fields, fst (run net (get_weather args env)) ≠ Ok (jsonify fields).
Proof.
  intros Htrace Hstatus Hjson Hmissing.
  destruct (weather_fields_missing m Hmissing) as [e He]. exists e.
  rewrite trace_get_weather in Htrace.
  case_bool_decide as Hkey; [done|]. injection Htrace as _ Hnet.
  rewrite run_get_weather_key, run_try_caught, run_get_weather_try by done.
  rewrite Hnet, Hjson, Hstatus, He. cbn. by repeat split.
Qed.

Lemma weather_missing_key_witness :
  ∃ e,
    weather_fields (JObj {[ "name" := JStr "London" ]}) = Raise e ∧
    fst (run (upstream 200 (Ok (JObj {[ "name" := JStr "London" ]})))
             (get_weather [] with_key)) =
      Ok (error_response (str_exn e) 500) ∧
    ∀ fields,
      fst (run (upstream 200 (Ok (JObj {[ "name" := JStr "London" ]})))
               (get_weather [] with_key)) ≠ Ok (jsonify fields).
Proof.
  apply (weather_missing_key
           (upstream 200 (Ok (JObj {[ "name" := JStr "London" ]})))
           [] with_key (weather_url "London" "0123456789abcdef")
           {| status_code := 200;
              response_json := Ok (JObj {[ "name" := JStr "London" ]}) |}).
  - vm_compute. reflexivity.
  - reflexivity.
  - reflexivity.
  - right. left. vm_compute. reflexivity.
Defined.

(** C7 as stated has the fault leave the view unhandled.  On the empty
    object the [KeyError] for ['name'] is caught: the view returns the
    500 answer, and no exception comes out of it. *)
Lemma weather_missing_key_is_caught :
  (∅ : gmap string json) !! "name" = None ∧
  weather_fields (JObj ∅) = Raise (Exn KeyError "'name'") ∧
  fst (run (upstream 200 (Ok (JObj ∅))) (get_weather [] with_key)) =
    Ok (error_response "'name'" 500) ∧
  ¬ ∃ e, fst (run (upstream 200 (Ok (JObj ∅))) (get_weather [] with_key)) =
           Raise e.
Proof.
  repeat split; try (vm_compute; reflexivity).
  intros [e He]. vm_compute in He. discriminate He.
Qed.

(** ** C9: the IP lookup reads its fields with [get] *)

(** C9 (as amended).  When the upstream answers 200 with a body that
    parses as a JSON object, [ip_lookup] answers 200 with an object of
    exactly the six fields [ip], [city], [region], [country], [timezone]
    and [org]; each holds the value of the upstream key ([ip], [city],
    [region], [country_name], [timezone], [org]) or null when the key is
    absent, so that a missing key never gives an error answer. *)
Theorem ip_lookup_optional_fields
  (net : network) (args : query) (url : string) (resp : response)
  (m : gmap string json) :
  snd (run net (ip_lookup args)) = [(url, Ok resp)] →
  status_code resp = 200 →
  response_json resp = Ok (JObj m) →
  ∃ out : gmap string json,
    fst (run net (ip_lookup args)) = Ok (jsonify (JObj out)) ∧
    status (jsonify (JObj out)) = 200 ∧
    dom out = {[ "ip"; "city"; "region"; "country"; "timezone"; "org" ]} ∧
    out !! "ip" = Some (default JNull (m !! "ip")) ∧
    out !! "city" = Some (default JNull (m !! "city")) ∧
    out !! "region" = Some (default JNull (m !! "region")) ∧
    out !! "country" = Some (default JNull (m !! "country_name")) ∧
    out !! "timezone" = Some (default JNull (m !! "timezone")) ∧
    out !! "org" = Some (default JNull (m !! "org")).
Proof.
  intros Htrace Hstatus Hjson.
  rewrite trace_ip_lookup in Htrace. injection Htrace as _ Hnet.
  unfold ip_lookup.
  rewrite run_try_caught, run_ip_lookup_try, Hnet, Hjson, Hstatus. cbn.
  eexists. split; [reflexivity|]. repeat split; reflexivity.
Qed.

Lemma ip_lookup_optional_fields_witness :
  ∃ out : gmap string json,
    fst (run (upstream 200 (Ok (JObj {[ "ip" := JStr "8.8.8.8" ]})))
             (ip_lookup [("ip", "8.8.8.8")])) = Ok (jsonify (JObj out)) ∧
    status (jsonify (JObj out)) = 200 ∧
    dom out = {[ "ip"; "city"; "region"; "country"; "timezone"; "org" ]} ∧
    out !! "ip" =
      Some (default JNull (({[ "ip" := JStr "8.8.8.8" ]} : gmap string json) !! "ip")) ∧
    out !! "city" =
      Some (default JNull (({[ "ip" := JStr "8.8.8.8" ]} : gmap string json) !! "city")) ∧
    out !! "region" =
      Some (default JNull (({[ "ip" := JStr "8.8.8.8" ]} : gmap string json) !! "region")) ∧
    out !! "country" =
      Some (default JNull
              (({[ "ip" := JStr "8.8.8.8" ]} : gmap string json) !! "country_name")) ∧
    out !! "timezone" =
      Some (default JNull
              (({[ "ip" := JStr "8.8.8.8" ]} : gmap string json) !! "timezone")) ∧
    out !! "org" =
      Some (default JNull (({[ "ip" := JStr "8.8.8.8" ]} : gmap string json) !! "org")).
Proof.
  apply (ip_lookup_optional_fields
           (upstream 200 (Ok (JObj {[ "ip" := JStr "8.8.8.8" ]})))
           [("ip", "8.8.8.8")] (ip_url "8.8.8.8")
           {| status_code := 200;
              response_json := Ok (JObj {[ "ip" := JStr "8.8.8.8" ]}) |}).
  - vm_compute. reflexivity.
  - reflexivity.
  - reflexivity.
Defined.

(** C9 as stated covers every 200 response.  A 200 body that is a JSON
    array has no [get] method: the view answers 500. *)
Lemma ip_lookup_on_array :
  snd (run (upstream 200 (Ok (JList []))) (ip_lookup [])) =
    [(ip_url "", Ok {| status_code := 200; response_json := Ok (JList []) |})] ∧
  fst (run (upstream 200 (Ok (JList []))) (ip_lookup [])) =
    Ok (error_response "'list' object has no attribute 'get'" 500) ∧
  ¬ ∃ out : gmap string json,
      fst (run (upstream 200 (Ok (JList []))) (ip_lookup [])) =
        Ok (jsonify (JObj out)).
Proof.
  repeat split; try (vm_compute; reflexivity).
  intros [out Hout]. vm_compute in Hout. discriminate Hout.
Qed.

(** ** C10: a rate that is absent or falsy *)



(** ** C2: exceptions and the [try] blocks *)

(** What the [try] blocks achieve.  On every network: the views [health],
    [health_root], [get_weather], [get_github_stats], [ip_lookup] and
    [get_news] always return a response, and so does [convert_currency]
    once its [amount] parameter has parsed; and whenever the [try] block
    of a view raises an exception [e] (from the outbound call, from
    [response.json()], from the extraction of a field or from the
    arithmetic), the view answers 500 with the body [{error: str(e)}]. *)
Theorem exceptions_in_try_blocks (net : network) :
  ((∃ resp, fst (run net health) = Ok resp) ∧
   (∃ resp, fst (run net health_root) = Ok resp) ∧
   (∀ args env, ∃ resp, fst (run net (get_weather args env)) = Ok resp) ∧
   (∀ args amount,
      amount_arg args = Ok amount →
      ∃ resp, fst (run net (convert_currency args)) = Ok resp) ∧
   (∀ username, ∃ resp, fst (run net (get_github_stats username)) = Ok resp) ∧
   (∀ args, ∃ resp, fst (run net (ip_lookup args)) = Ok resp) ∧
   (∃ resp, fst (run net get_news) = Ok resp)) ∧
  ((∀ args env e,
      getenv env "OPENWEATHER_API_KEY" "" ≠ "" →
      fst (run net (get_weather_try (args_get args "city" "London")
                                    (getenv env "OPENWEATHER_API_KEY" ""))) =
        Raise e →
      fst (run net (get_weather args env)) =
        Ok (error_response (str_exn e) 500)) ∧
   (∀ args amount e,
      amount_arg args = Ok amount →
      fst (run net (convert_currency_try (args_get args "from" "USD")
                                         (args_get args "to" "EUR") amount)) =
        Raise e →
      fst (run net (convert_currency args)) =
        Ok (error_response (str_exn e) 500)) ∧
   (∀ username e,
      fst (run net (get_github_stats_try username)) = Raise e →
      fst (run net (get_github_stats username)) =
        Ok (error_response (str_exn e) 500)) ∧
   (∀ args e,
      fst (run net (ip_lookup_try (args_get args "ip" ""))) = Raise e →
      fst (run net (ip_lookup args)) = Ok (error_response (str_exn e) 500)) ∧
   (∀ e,
      fst (run net get_news_try) = Raise e →
      fst (run net get_news) = Ok (error_response (str_exn e) 500))) ∧
  (∀ e,
     status (error_response (str_exn e) 500) = 500 ∧
     body (error_response (str_exn e) 500) = JObj {[ "error" := JStr (str_exn e) ]}).
Proof.
  assert (∀ (p : io http_response) e,
            fst (run net p) = Raise e →
            fst (run net (try_except p caught)) =
              Ok (error_response (str_exn e) 500)) as Hcaught.
  { intros p e Hp. rewrite run_try_caught.
    destruct (run net p) as [[a | e'] t]; simpl in *; congruence. }
  split; [|split].
  - repeat split.
    + by eexists.
    + by eexists.
    + intros args env.
      destruct (decide (getenv env "OPENWEATHER_API_KEY" "" = "")) as [Hkey | Hkey].
      * rewrite run_get_weather_no_key by done. by eexists.
      * rewrite run_get_weather_key by done. apply try_caught_answers.
    + intros args amount Hamount.
      rewrite run_convert_currency, Hamount. apply try_caught_answers.
    + intros username. apply try_caught_answers.
    + intros args. apply try_caught_answers.
    + apply try_caught_answers.
  - repeat split.
    + intros args env e Hkey Hraise.
      rewrite run_get_weather_key by done. by apply Hcaught.
    + intros args amount e Hamount Hraise.
      rewrite run_convert_currency, Hamount. by apply Hcaught.
    + intros username e Hraise. by apply Hcaught.
    + intros args e Hraise. by apply Hcaught.
    + intros e Hraise. by apply Hcaught.
  - intros e. split; reflexivity.
Qed.

Lemma exceptions_in_try_blocks_witness :
  fst (run unreachable (get_weather [] with_key)) =
    Ok (error_response "connection refused" 500) ∧
  fst (run (upstream 200 not_json) (convert_currency ten_dollars)) =
    Ok (error_response "Expecting value: line 1 column 1 (char 0)" 500) ∧
  fst (run (upstream 200 (Ok (JObj ∅))) (get_github_stats "octocat")) =
    Ok (error_response "'login'" 500).
Proof.
  split; [|split].
  - apply (proj1 (proj1 (proj2 (exceptions_in_try_blocks unreachable)))
             [] with_key (Exn (LibraryError "ConnectionError") "connection refused")).
    + vm_compute. discriminate.
    + vm_compute. reflexivity.
  - apply (proj1 (proj2 (proj1 (proj2
             (exceptions_in_try_blocks (upstream 200 not_json)))))
             ten_dollars (PyFloat.of_Z 10)
             (Exn (LibraryError "JSONDecodeError")
                  "Expecting value: line 1 column 1 (char 0)")).
    + vm_compute. reflexivity.
    + vm_compute. reflexivity.
  - apply (proj1 (proj2 (proj2 (proj1 (proj2
             (exceptions_in_try_blocks (upstream 200 (Ok (JObj ∅))))))))
             "octocat" (Exn KeyError "'login'")).
    vm_compute. reflexivity.
Defined.

(** C2 on the request [/api/currency?amount=abc].  Every exception
    raised while a request is handled should be answered 500 with
    [{error: <message>}], the parsing of query parameters included.  In
    [convert_currency] the call [float(...)] stands before the [try]
    that does this for everything else: the [ValueError] leaves the view,
    no JSON answer is built, and no call is made. *)
Lemma amount_parse_error_escapes :
  run (upstream 200 (Ok (rates_body rate_085)))
      (convert_currency [("amount", "abc")]) =
    (Raise (Exn ValueError "could not convert string to float: 'abc'"), []) ∧
  ¬ ∃ resp,
      fst (run (upstream 200 (Ok (rates_body rate_085)))
               (convert_currency [("amount", "abc")])) = Ok resp.
Proof.
  split; [vm_compute; reflexivity|].
  intros [resp Hresp]. vm_compute in Hresp. discriminate Hresp.
Qed.

(* ===================================================================== *)
(** * Further properties of the views *)
(* ===================================================================== *)

(** ** Which calls go out *)

(** The calls of the proxy views.  [get_weather] makes no call without a
    key and exactly one GET with a key, to the weather URL with the city
    and the key; [convert_currency] makes no call when the amount does not
    parse and exactly one GET when it does, to the URL of the source
    currency; [get_github_stats], [ip_lookup] and [get_news] always make
    exactly one GET, to the URL of the user, of the address (the generic
    one without an address) and to the fixed news URL. *)
Theorem outbound_calls (net : network) :
  (∀ args env,
     getenv env "OPENWEATHER_API_KEY" "" = "" →
     snd (run net (get_weather args env)) = []) ∧
  (∀ args env,
     getenv env "OPENWEATHER_API_KEY" "" ≠ "" →
     ∃ r, snd (run net (get_weather args env)) =
            [("http://api.openweathermap.org/data/2.5/weather?q="
                +:+ args_get args "city" "London" +:+ "&appid="
                +:+ getenv env "OPENWEATHER_API_KEY" "" +:+ "&units=metric", r)]) ∧
  (∀ args e,
     amount_arg args = Raise e →
     snd (run net (convert_currency args)) = []) ∧
  (∀ args amount,
     amount_arg args = Ok amount →
     ∃ r, snd (run net (convert_currency args)) =
            [("https://api.exchangerate-api.com/v4/latest/"
                +:+ args_get args "from" "USD", r)]) ∧
  (∀ username,
     ∃ r, snd (run net (get_github_stats username)) =
            [("https://api.github.com/users/" +:+ username, r)]) ∧
  (∀ args,
     args_get args "ip" "" = "" →
     ∃ r, snd (run net (ip_lookup args)) = [("https://ipapi.co/json/", r)]) ∧
  (∀ args,
     args_get args "ip" "" ≠ "" →
     ∃ r, snd (run net (ip_lookup args)) =
            [("https://ipapi.co/" +:+ args_get args "ip" "" +:+ "/json/", r)]) ∧
  (∃ r, snd (run net get_news) =
          [("https://dev.to/api/articles?tag=webdev&top=7", r)]).
Proof.
  repeat split.
  - intros args env Hkey. rewrite trace_get_weather.
    by rewrite bool_decide_eq_true_2.
  - intros args env Hkey. rewrite trace_get_weather.
    rewrite bool_decide_eq_false_2 by done. by eexists.
  - intros args e Hamount. by rewrite trace_convert_currency, Hamount.
  - intros args amount Hamount. rewrite trace_convert_currency, Hamount.
    by eexists.
  - intros username. rewrite trace_get_github_stats. by eexists.
  - intros args Hip. rewrite trace_ip_lookup. unfold ip_url.
    rewrite bool_decide_eq_true_2 by done. by eexists.
  - intros args Hip. rewrite trace_ip_lookup. unfold ip_url.
    rewrite bool_decide_eq_false_2 by done. by eexists.
  - rewrite trace_get_news. by eexists.
Qed.

Lemma outbound_calls_witness :
  snd (run unreachable (get_weather [("city", "Paris")] empty_key)) = [] ∧
  (∃ r, snd (run unreachable (get_weather [("city", "Paris")] with_key)) =
          [("http://api.openweathermap.org/data/2.5/weather?q="
              +:+ args_get [("city", "Paris")] "city" "London" +:+ "&appid="
              +:+ getenv with_key "OPENWEATHER_API_KEY" "" +:+ "&units=metric", r)]) ∧
  snd (run unreachable (convert_currency [("amount", "abc")])) = [] ∧
  (∃ r, snd (run unreachable (convert_currency ten_dollars)) =
          [("https://api.exchangerate-api.com/v4/latest/"
              +:+ args_get ten_dollars "from" "USD", r)]) ∧
  (∃ r, snd (run unreachable (ip_lookup [])) = [("https://ipapi.co/json/", r)]) ∧
  (∃ r, snd (run unreachable (ip_lookup [("ip", "8.8.8.8")])) =
          [("https://ipapi.co/" +:+ args_get [("ip", "8.8.8.8")] "ip" ""
              +:+ "/json/", r)]).
Proof.
  destruct (outbound_calls unreachable)
    as (Hno_key & Hweather & Hno_amount & Hcurrency & _ & Hip_none & Hip_some & _).
  split; [|split; [|split; [|split; [|split]]]].
  - apply Hno_key. reflexivity.
  - apply Hweather. vm_compute. discriminate.
  - apply (Hno_amount [("amount", "abc")]
             (Exn ValueError "could not convert string to float: 'abc'")).
    vm_compute. reflexivity.
  - apply (Hcurrency ten_dollars (PyFloat.of_Z 10)). vm_compute. reflexivity.
  - apply Hip_none. reflexivity.
  - apply Hip_some. vm_compute. discriminate.
Defined.

Lemma bad_amount_is_raised (net : network) (args : query) (e : exn) :
  amount_arg args = Raise e → run net (convert_currency args) = (Raise e, []).
Proof. intros Hamount. by rewrite run_convert_currency, Hamount. Qed.

(** The only exception that leaves [convert_currency] is the one of
    [float(...)] on the [amount] parameter: [e] comes out of the view
    exactly when the parsing of the amount raises [e], and then no call
    has gone out. *)
Theorem bad_amount_makes_no_call (net : network) (args : query) (e : exn) :
  (fst (run net (convert_currency args)) = Raise e ↔ amount_arg args = Raise e) ∧
  (amount_arg args = Raise e → run net (convert_currency args) = (Raise e, [])).
Proof.
  split; [|apply bad_amount_is_raised].
  rewrite run_convert_currency.
  destruct (amount_arg args) as [amount | e'] eqn:Hamount;
    [|cbn; split; intros [= ->]; reflexivity].
  rewrite answer_try_caught. split; [|discriminate].
  destruct (fst (run net _)); discriminate.
Qed.

Lemma bad_amount_makes_no_call_witness :
  run unreachable (convert_currency [("amount", "ten")]) =
    (Raise (Exn ValueError "could not convert string to float: 'ten'"), []).
Proof.
  apply (proj2 (bad_amount_makes_no_call unreachable [("amount", "ten")]
                 (Exn ValueError "could not convert string to float: 'ten'"))).
  vm_compute. reflexivity.
Defined.

(** ** The shape of every answer *)

Ltac invert_binds H :=
  unfold mbind, result_bind in H;
  repeat match type of H with
         | match ?x with Ok _ => _ | Raise _ => _ end = Ok _ =>
             destruct x eqn:?; [|discriminate H]
         end;
  injection H as <-.

Lemma weather_fields_dom (data fields : json) :
  weather_fields data = Ok fields →
  ∃ m, fields = JObj m ∧
       dom m = {[ "city"; "temperature"; "description"; "humidity"; "wind_speed" ]}.
Proof.
  unfold weather_fields. intros H. invert_binds H.
  eexists. split; reflexivity.
Qed.

Lemma github_fields_dom (data fields : json) :
  github_fields data = Ok fields →
  ∃ m, fields = JObj m ∧
       dom m = {[ "username"; "name"; "bio"; "public_repos"; "followers";
                  "following"; "avatar_url"; "profile_url" ]}.
Proof.
  unfold github_fields. intros H. invert_binds H.
  eexists. split; reflexivity.
Qed.

Lemma ip_fields_dom (data fields : json) :
  ip_fields data = Ok fields →
  ∃ m, fields = JObj m ∧
       dom m = {[ "ip"; "city"; "region"; "country"; "timezone"; "org" ]}.
Proof.
  unfold ip_fields. intros H. invert_binds H.
  eexists. split; reflexivity.
Qed.

(** What [get_weather] can answer. *)
Lemma weather_answers
  (net : network) (args : query) (env : gmap string string) (resp : http_response) :
  fst (run net (get_weather args env)) = Ok resp →
  (∃ m, resp = jsonify (JObj m) ∧
        dom m = {[ "city"; "temperature"; "description"; "humidity"; "wind_speed" ]}) ∨
  (∃ msg, resp = error_response msg 500) ∨
  resp = error_response "City not found" 404.
Proof.
  destruct (decide (getenv env "OPENWEATHER_API_KEY" "" = "")) as [Hkey | Hkey].
  - rewrite run_get_weather_no_key by done. intros [= <-]. eauto.
  - rewrite run_get_weather_key, answer_try_caught, run_get_weather_try by done.
    cbn [fst].
    destruct (net _) as [r | e]; [|intros [= <-]; eauto].
    destruct (response_json r) as [data | e]; [|intros [= <-]; eauto].
    destruct (status_code r =? 200); [|intros [= <-]; eauto].
    destruct (weather_fields data) as [fields | e] eqn:Hfields;
      [|intros [= <-]; eauto].
    intros [= <-]. left.
    destruct (weather_fields_dom _ _ Hfields) as (m & -> & Hdom). eauto.
Qed.

(** What [convert_currency] can answer. *)
Lemma currency_answers (net : network) (args : query) (resp : http_response) :
  fst (run net (convert_currency args)) = Ok resp →
  (∃ m, resp = jsonify (JObj m) ∧
        dom m = {[ "from"; "to"; "amount"; "converted"; "rate" ]}) ∨
  (∃ msg, resp = error_response msg 500) ∨
  resp = error_response "Invalid currency code" 400.
Proof.
  rewrite run_convert_currency.
  destruct (amount_arg args) as [amount | e]; [|discriminate].
  rewrite answer_try_caught, run_convert_currency_try. cbn [fst].
  destruct (net _) as [r | e]; [|intros [= <-]; eauto].
  destruct (response_json r) as [data | e]; [|intros [= <-]; eauto].
  destruct (status_code r =? 200); [|intros [= <-]; eauto].
  destruct (rates ← getitem_str data "rates"; dict_get rates _) as [rate | e];
    [|intros [= <-]; eauto].
  destruct (truthy rate); [|intros [= <-]; eauto].
  destruct (float_mul amount rate) as [product | e]; [|intros [= <-]; eauto].
  intros [= <-]. left. eexists. split; reflexivity.
Qed.

(** What [get_github_stats] can answer. *)
Lemma github_answers (net : network) (username : string) (resp : http_response) :
  fst (run net (get_github_stats username)) = Ok resp →
  (∃ m, resp = jsonify (JObj m) ∧
        dom m = {[ "username"; "name"; "bio"; "public_repos"; "followers";
                   "following"; "avatar_url"; "profile_url" ]}) ∨
  (∃ msg, resp = error_response msg 500) ∨
  resp = error_response "User not found" 404.
Proof.
  unfold get_github_stats.
  rewrite answer_try_caught, run_get_github_stats_try. cbn [fst].
  destruct (net _) as [r | e]; [|intros [= <-]; eauto].
  destruct (response_json r) as [data | e]; [|intros [= <-]; eauto].
  destruct (status_code r =? 200); [|intros [= <-]; eauto].
  destruct (github_fields data) as [fields | e] eqn:Hfields;
    [|intros [= <-]; eauto].
  intros [= <-]. left.
  destruct (github_fields_dom _ _ Hfields) as (m & -> & Hdom). eauto.
Qed.

(** What [ip_lookup] can answer. *)
Lemma ip_answers (net : network) (args : query) (resp : http_response) :
  fst (run net (ip_lookup args)) = Ok resp →
  (∃ m, resp = jsonify (JObj m) ∧
        dom m = {[ "ip"; "city"; "region"; "country"; "timezone"; "org" ]}) ∨
  (∃ msg, resp = error_response msg 500).
Proof.
  unfold ip_lookup.
  rewrite answer_try_caught, run_ip_lookup_try. cbn [fst].
  destruct (net _) as [r | e]; [|intros [= <-]; eauto].
  destruct (response_json r) as [data | e]; [|intros [= <-]; eauto].
  destruct (status_code r =? 200); [|intros [= <-]; eauto].
  destruct (ip_fields data) as [fields | e] eqn:Hfields;
    [|intros [= <-]; eauto].
  intros [= <-]. left.
  destruct (ip_fields_dom _ _ Hfields) as (m & -> & Hdom). eauto.
Qed.

(** What [get_news] can answer. *)
Lemma news_answers (net : network) (resp : http_response) :
  fst (run net get_news) = Ok resp →
  (∃ m, resp = jsonify (JObj m) ∧ dom m = {[ "articles" ]}) ∨
  (∃ msg, resp = error_response msg 500).
Proof.
  unfold get_news.
  rewrite answer_try_caught, run_get_news_try. cbn [fst].
  destruct (net _) as [r | e]; [|intros [= <-]; eauto].
  destruct (response_json r) as [data | e]; [|intros [= <-]; eauto].
  destruct (status_code r =? 200); [|intros [= <-]; eauto].
  cbn. destruct (slice_to data 10) as [items | e]; cbn; [|intros [= <-]; eauto].
  destruct (news_loop items []) as [articles | e]; cbn; [|intros [= <-]; eauto].
  intros [= <-]. left. eexists. split; reflexivity.
Qed.

Lemma strip_prefix_Some (p s u : string) :
  strip_prefix p s = Some u ↔ s = p +:+ u.
Proof.
  revert s. induction p as [| a p IH]; intros s; simpl.
  - split; [by intros [= ->] | by intros ->].
  - destruct s as [| b s]; [split; discriminate|].
    case_bool_decide as Hab.
    + subst b. rewrite IH. split; [by intros -> | by intros [= ->]].
    + split; [discriminate | intros [= ? ?]; done].
Qed.

Lemma no_error_field (m : gmap string json) (fields : gset string) :
  dom m = fields → "error" ∉ fields → m !! "error" = None.
Proof. intros <- Hnot. by apply not_elem_of_dom. Qed.

(** Every answer of a routed view is of one of five kinds. *)
Lemma routed_answers
  (path : string) (args : query) (env : gmap string string)
  (view : io http_response) (net : network) (resp : http_response) :
  route path args env = Some view →
  fst (run net view) = Ok resp →
  (∃ m, resp = jsonify (JObj m) ∧ m !! "error" = None) ∨
  (∃ msg, resp = error_response msg 500) ∨
  (path = "/api/currency" ∧ resp = error_response "Invalid currency code" 400) ∨
  (path = "/api/weather" ∧ resp = error_response "City not found" 404) ∨
  (∃ username,
     path = "/api/github/" +:+ username ∧ username ≠ "" ∧
     has_slash username = false ∧ resp = error_response "User not found" 404).
Proof.
  unfold route. intros Hroute Hrun.
  repeat case_bool_decide; simplify_eq.
  - injection Hrun as <-. left. eexists. split; reflexivity.
  - injection Hrun as <-. left. eexists. split; reflexivity.
  - destruct (weather_answers _ _ _ _ Hrun) as [(m & -> & Hdom) | [? | ->]]; eauto 6.
    left. eexists. split; [done|]. eapply no_error_field; [done|]. by vm_compute.
  - destruct (currency_answers _ _ _ Hrun) as [(m & -> & Hdom) | [? | ->]]; eauto 6.
    left. eexists. split; [done|]. eapply no_error_field; [done|]. by vm_compute.
  - destruct (ip_answers _ _ _ Hrun) as [(m & -> & Hdom) | ?]; eauto.
    left. eexists. split; [done|]. eapply no_error_field; [done|]. by vm_compute.
  - destruct (news_answers _ _ Hrun) as [(m & -> & Hdom) | ?]; eauto.
    left. eexists. split; [done|]. eapply no_error_field; [done|]. by vm_compute.
  - destruct (strip_prefix "/api/github/" path) as [username|] eqn:Hprefix; [|done].
    apply strip_prefix_Some in Hprefix.
    destruct (bool_decide (username = "")) eqn:Hempty; [done|].
    destruct (has_slash username) eqn:Hslash; [done|].
    apply bool_decide_eq_false in Hempty. cbn in Hroute. simplify_eq.
    destruct (github_answers _ _ _ Hrun) as [(m & -> & Hdom) | [? | ->]]; eauto.
    + left. eexists. split; [done|]. eapply no_error_field; [done|]. by vm_compute.
    + do 4 right. eauto.
Qed.

(** Whatever the path, the query, the environment and the network, a view
    that returns answers with the JSON content type and one of the
    statuses 200, 400, 404, 500; the body is an object; with status 200 it
    has no [error] field, and with any other status it is exactly
    [{error: <string>}]. *)
Theorem answers_are_json_objects
  (path : string) (args : query) (env : gmap string string)
  (view : io http_response) (net : network) (resp : http_response) :
  route path args env = Some view →
  fst (run net view) = Ok resp →
  mimetype resp = "application/json" ∧
  (status resp = 200 ∨ status resp = 400 ∨ status resp = 404 ∨ status resp = 500) ∧
  ∃ m : gmap string json,
    body resp = JObj m ∧
    (status resp = 200 → m !! "error" = None) ∧
    (status resp ≠ 200 → ∃ msg, m = {[ "error" := JStr msg ]}).
Proof.
  intros Hroute Hrun.
  destruct (routed_answers _ _ _ _ _ _ Hroute Hrun)
    as [(m & -> & Hm) | [(msg & ->) | [(_ & ->) | [(_ & ->) | (u & _ & _ & _ & ->)]]]].
  - split; [done|]. split; [by left|]. exists m. by repeat split.
  - split; [done|]. split; [by do 3 right|]. eexists.
    split; [reflexivity|]. split; [discriminate|]. by eexists.
  - split; [done|]. split; [by right; left|]. eexists.
    split; [reflexivity|]. split; [discriminate|]. by eexists.
  - split; [done|]. split; [by right; right; left|]. eexists.
    split; [reflexivity|]. split; [discriminate|]. by eexists.
  - split; [done|]. split; [by right; right; left|]. eexists.
    split; [reflexivity|]. split; [discriminate|]. by eexists.
Qed.

Lemma answers_are_json_objects_witness :
  mimetype (error_response "City not found" 404) = "application/json" ∧
  (status (error_response "City not found" 404) = 200 ∨
   status (error_response "City not found" 404) = 400 ∨
   status (error_response "City not found" 404) = 404 ∨
   status (error_response "City not found" 404) = 500) ∧
  ∃ m : gmap string json,
    body (error_response "City not found" 404) = JObj m ∧
    (status (error_response "City not found" 404) = 200 → m !! "error" = None) ∧
    (status (error_response "City not found" 404) ≠ 200 →
     ∃ msg, m = {[ "error" := JStr msg ]}).
Proof.
  apply (answers_are_json_objects
           "/api/weather" [("city", "Atlantis")] with_key
           (get_weather [("city", "Atlantis")] with_key)
           (upstream 404 (Ok not_found_body))).
  - reflexivity.
  - vm_compute. reflexivity.
Defined.

(** Among the views of [app.py], the client-error statuses tell the
    view: a view that answers 400 is the one of [/api/currency] and its
    body is ['Invalid currency code']; a view that answers 404 is the one
    of [/api/weather], with ['City not found'], or the one of
    [/api/github/<username>], with ['User not found'].  (The 404 that
    Flask gives on a path bound to no view is not the answer of a
    view.) *)
Theorem client_error_answers
  (path : string) (args : query) (env : gmap string string)
  (view : io http_response) (net : network) (resp : http_response) :
  route path args env = Some view →
  fst (run net view) = Ok resp →
  (status resp = 400 →
   path = "/api/currency" ∧ resp = error_response "Invalid currency code" 400) ∧
  (status resp = 404 →
   (path = "/api/weather" ∧ resp = error_response "City not found" 404) ∨
   (∃ username,
      path = "/api/github/" +:+ username ∧
      resp = error_response "User not found" 404)).
Proof.
  intros Hroute Hrun.
  destruct (routed_answers _ _ _ _ _ _ Hroute Hrun)
    as [(m & -> & Hm) | [(msg & ->) | [(-> & ->) | [(-> & ->) | (u & -> & _ & _ & ->)]]]];
    split; try discriminate; eauto.
Qed.

Lemma client_error_answers_witness :
  ("/api/currency" = "/api/currency" ∧
   error_response "Invalid currency code" 400 =
     error_response "Invalid currency code" 400) ∧
  (("/api/weather" = "/api/weather" ∧
    error_response "City not found" 404 = error_response "City not found" 404) ∨
   (∃ username,
      "/api/weather" = "/api/github/" +:+ username ∧
      error_response "City not found" 404 = error_response "User not found" 404)).
Proof.
  split.
  - apply (proj1 (client_error_answers
                    "/api/currency" ten_dollars ∅ (convert_currency ten_dollars)
                    (upstream 200 (Ok (rates_body (JInt 0))))
                    (error_response "Invalid currency code" 400)
                    eq_refl ltac:(vm_compute; reflexivity))).
    reflexivity.
  - apply (proj2 (client_error_answers
                    "/api/weather" [("city", "Atlantis")] with_key
                    (get_weather [("city", "Atlantis")] with_key)
                    (upstream 404 (Ok not_found_body))
                    (error_response "City not found" 404)
                    eq_refl ltac:(vm_compute; reflexivity))).
    reflexivity.
Defined.

(** ** Failures of the upstream *)

(** A routed view either makes no call, or makes one call and maps what
    comes back: a failed call or an unparsable body to the 500 answer,
    a parsed body by a function of the response. *)
Lemma routed_run
  (path : string) (args : query) (env : gmap string string)
  (view : io http_response) (net : network) :
  route path args env = Some view →
  snd (run net view) = [] ∨
  ∃ (url : string) (on_body : response → json → http_response),
    snd (run net view) = [(url, net url)] ∧
    fst (run net view) =
      Ok match net url with
         | Raise e => error_response (str_exn e) 500
         | Ok r =>
             match response_json r with
             | Raise e => error_response (str_exn e) 500
             | Ok data => on_body r data
             end
         end.
Proof.
  pose (settle := fun (x : result http_response) =>
                    match x with
                    | Ok a => a
                    | Raise e => error_response (str_exn e) 500
                    end).
  unfold route. intros Hroute.
  repeat case_bool_decide; simplify_eq.
  - by left.
  - by left.
  - rewrite trace_get_weather. case_bool_decide as Hkey; [by left|]. right.
    eexists _, (fun r data =>
      settle (if status_code r =? 200 then jsonify <$> weather_fields data
              else Ok (error_response "City not found" 404))).
    split; [done|].
    rewrite run_get_weather_key, answer_try_caught, run_get_weather_try by done.
    cbn [fst]. destruct (net _) as [r | e]; [|done].
    destruct (response_json r) as [data | e]; [|done].
    by destruct (if status_code r =? 200 then _ else _).
  - rewrite trace_convert_currency, run_convert_currency.
    destruct (amount_arg args) as [amount | e]; [|by left]. right.
    eexists _, (fun r data =>
      settle (if status_code r =? 200 then
                match rates ← getitem_str data "rates";
                      dict_get rates (args_get args "to" "EUR") with
                | Raise e => Raise e
                | Ok rate =>
                    if truthy rate then
                      match float_mul amount rate with
                      | Raise e => Raise e
                      | Ok converted_amount =>
                          Ok (jsonify (JObj (py_dict
                            [("from", JStr (args_get args "from" "USD"));
                             ("to", JStr (args_get args "to" "EUR"));
                             ("amount", JFloat amount);
                             ("converted", JFloat (PyFloat.round2 converted_amount));
                             ("rate", rate)])))
                      end
                    else Ok (error_response "Invalid currency code" 400)
                end
              else Ok (error_response "Unable to fetch exchange rates" 500))).
    split; [done|].
    rewrite answer_try_caught, run_convert_currency_try.
    cbn [fst]. destruct (net _) as [r | e]; [|done].
    destruct (response_json r) as [data | e]; [|done].
    by destruct (if status_code r =? 200 then _ else _).
  - right. rewrite trace_ip_lookup.
    eexists _, (fun r data =>
      settle (if status_code r =? 200 then jsonify <$> ip_fields data
              else Ok (error_response "Unable to lookup IP" 500))).
    split; [done|]. unfold ip_lookup.
    rewrite answer_try_caught, run_ip_lookup_try.
    cbn [fst]. destruct (net _) as [r | e]; [|done].
    destruct (response_json r) as [data | e]; [|done].
    by destruct (if status_code r =? 200 then _ else _).
  - right. rewrite trace_get_news.
    eexists _, (fun r data =>
      settle (if status_code r =? 200 then
                items ← slice_to data 10;
                articles ← news_loop items [];
                Ok (jsonify (JObj (py_dict [("articles", JList articles)])))
              else Ok (error_response "Unable to fetch news" 500))).
    split; [done|]. unfold get_news.
    rewrite answer_try_caught, run_get_news_try.
    cbn [fst]. destruct (net _) as [r | e]; [|done].
    destruct (response_json r) as [data | e]; [|done].
    by destruct (if status_code r =? 200 then _ else _).
  - destruct (strip_prefix "/api/github/" path) as [username|]; [|done].
    destruct (bool_decide (username = "") || has_slash username); [done|].
    simplify_eq. right. rewrite trace_get_github_stats.
    eexists _, (fun r data =>
      settle (if status_code r =? 200 then jsonify <$> github_fields data
              else Ok (error_response "User not found" 404))).
    split; [done|]. unfold get_github_stats.
    rewrite answer_try_caught, run_get_github_stats_try.
    cbn [fst]. destruct (net _) as [r | e]; [|done].
    destruct (response_json r) as [data | e]; [|done].
    by destruct (if status_code r =? 200 then _ else _).
Qed.

(** When the outbound call of a view fails with [e] (no connection, a
    timeout, a bad URL), the view answers 500 with [{error: str(e)}]. *)
Theorem transport_failure_is_500
  (path : string) (args : query) (env : gmap string string)
  (view : io http_response) (net : network) (url : string) (e : exn) :
  route path args env = Some view →
  snd (run net view) = [(url, Raise e)] →
  fst (run net view) = Ok (error_response (str_exn e) 500).
Proof.
  intros Hroute Htrace.
  destruct (routed_run _ _ _ _ net Hroute) as [Hnone | (u & f & Hcall & ->)].
  - by rewrite Hnone in Htrace.
  - rewrite Hcall in Htrace. injection Htrace as _ Hnet. by rewrite Hnet.
Qed.

Lemma transport_failure_is_500_witness :
  fst (run unreachable (get_news)) = Ok (error_response "connection refused" 500).
Proof.
  apply (transport_failure_is_500
           "/api/news" [] ∅ get_news unreachable news_url
           (Exn (LibraryError "ConnectionError") "connection refused")).
  - reflexivity.
  - vm_compute. reflexivity.
Defined.

(** When the body of the upstream response does not parse, the view
    answers 500 with the message of the parser, whatever the status code
    of the upstream was: the body is parsed before the status is read. *)
Theorem unparsable_body_is_500
  (path : string) (args : query) (env : gmap string string)
  (view : io http_response) (net : network) (url : string)
  (resp : response) (e : exn) :
  route path args env = Some view →
  snd (run net view) = [(url, Ok resp)] →
  response_json resp = Raise e →
  fst (run net view) = Ok (error_response (str_exn e) 500).
Proof.
  intros Hroute Htrace Hjson.
  destruct (routed_run _ _ _ _ net Hroute) as [Hnone | (u & f & Hcall & ->)].
  - by rewrite Hnone in Htrace.
  - rewrite Hcall in Htrace. injection Htrace as _ Hnet. by rewrite Hnet, Hjson.
Qed.

Lemma unparsable_body_is_500_witness :
  fst (run (upstream 200 not_json) (ip_lookup [])) =
    Ok (error_response "Expecting value: line 1 column 1 (char 0)" 500).
Proof.
  apply (unparsable_body_is_500
           "/api/ip-lookup" [] ∅ (ip_lookup []) (upstream 200 not_json) (ip_url "")
           {| status_code := 200; response_json := not_json |}
           (Exn (LibraryError "JSONDecodeError")
                "Expecting value: line 1 column 1 (char 0)")).
  - reflexivity.
  - vm_compute. reflexivity.
  - reflexivity.
Defined.

(** With a status other than 200 and a body that parses, the currency,
    IP and news views answer 500 with their own fixed message. *)
Theorem upstream_not_200_is_500 (net : network) (resp : response) (data : json) :
  status_code resp ≠ 200 →
  response_json resp = Ok data →
  (∀ args url,
     snd (run net (convert_currency args)) = [(url, Ok resp)] →
     fst (run net (convert_currency args)) =
       Ok (error_response "Unable to fetch exchange rates" 500)) ∧
  (∀ args url,
     snd (run net (ip_lookup args)) = [(url, Ok resp)] →
     fst (run net (ip_lookup args)) =
       Ok (error_response "Unable to lookup IP" 500)) ∧
  (∀ url,
     snd (run net get_news) = [(url, Ok resp)] →
     fst (run net get_news) = Ok (error_response "Unable to fetch news" 500)).
Proof.
  intros Hstatus Hjson. apply Z.eqb_neq in Hstatus. repeat split.
  - intros args url Htrace. rewrite trace_convert_currency in Htrace.
    rewrite run_convert_currency.
    destruct (amount_arg args) as [amount | e]; [|done].
    injection Htrace as _ Hnet.
    rewrite answer_try_caught, run_convert_currency_try. cbn [fst].
    by rewrite Hnet, Hjson, Hstatus.
  - intros args url Htrace. rewrite trace_ip_lookup in Htrace.
    injection Htrace as _ Hnet. unfold ip_lookup.
    rewrite answer_try_caught, run_ip_lookup_try. cbn [fst].
    by rewrite Hnet, Hjson, Hstatus.
  - intros url Htrace. rewrite trace_get_news in Htrace.
    injection Htrace as _ Hnet. unfold get_news.
    rewrite answer_try_caught, run_get_news_try. cbn [fst].
    by rewrite Hnet, Hjson, Hstatus.
Qed.

Lemma upstream_not_200_is_500_witness :
  fst (run (upstream 503 (Ok not_found_body)) (convert_currency ten_dollars)) =
    Ok (error_response "Unable to fetch exchange rates" 500) ∧
  fst (run (upstream 503 (Ok not_found_body)) (ip_lookup [])) =
    Ok (error_response "Unable to lookup IP" 500) ∧
  fst (run (upstream 503 (Ok not_found_body)) get_news) =
    Ok (error_response "Unable to fetch news" 500).
Proof.
  destruct (upstream_not_200_is_500 (upstream 503 (Ok not_found_body))
              {| status_code := 503; response_json := Ok not_found_body |}
              not_found_body) as (Hcurrency & Hip & Hnews).
  - vm_compute. discriminate.
  - reflexivity.
  - split; [|split].
    + apply (Hcurrency ten_dollars (currency_url "USD")). vm_compute. reflexivity.
    + apply (Hip [] (ip_url "")). vm_compute. reflexivity.
    + apply (Hnews news_url). vm_compute. reflexivity.
Defined.

(** ** [/api/weather]: the mapping and its bounds *)

Lemma getitem_int_head (x : json) (l : list json) :
  getitem_int (JList (x :: l)) 0 = Ok x.
Proof.
  unfold getitem_int, seq_index.
  replace (0 <? Z.of_nat (length (x :: l))) with true
    by (symmetry; apply Z.ltb_lt; simpl; lia).
  reflexivity.
Qed.

(** On a 200 body with [name], [main.temp], [main.humidity], a non-empty
    [weather] list whose first element has a [description], and
    [wind.speed], [get_weather] answers 200 with these five values under
    the names [city], [temperature], [humidity], [description] and
    [wind_speed]; the other elements of [weather] and any other key are
    ignored. *)
Theorem weather_mapping
  (net : network) (args : query) (env : gmap string string) (url : string)
  (resp : response) (m main wind first : gmap string json) (others : list json)
  (name temp humidity description speed : json) :
  snd (run net (get_weather args env)) = [(url, Ok resp)] →
  status_code resp = 200 →
  response_json resp = Ok (JObj m) →
  m !! "name" = Some name →
  m !! "main" = Some (JObj main) →
  main !! "temp" = Some temp →
  main !! "humidity" = Some humidity →
  m !! "weather" = Some (JList (JObj first :: others)) →
  first !! "description" = Some description →
  m !! "wind" = Some (JObj wind) →
  wind !! "speed" = Some speed →
  fst (run net (get_weather args env)) =
    Ok (jsonify (JObj (py_dict
      [("city", name); ("temperature", temp); ("description", description);
       ("humidity", humidity); ("wind_speed", speed)]))).
Proof.
  intros Htrace Hstatus Hjson Hname Hmain Htemp Hhum Hweather Hdesc Hwind Hspeed.
  rewrite trace_get_weather in Htrace.
  case_bool_decide as Hkey; [done|]. injection Htrace as _ Hnet.
  rewrite run_get_weather_key, answer_try_caught, run_get_weather_try by done.
  cbn [fst]. rewrite Hnet, Hjson, Hstatus.
  unfold weather_fields. cbn.
  rewrite Hname. cbn. rewrite Hmain. cbn. rewrite Htemp. cbn.
  rewrite Hweather. cbn -[getitem_int]. rewrite getitem_int_head. cbn.
  rewrite Hdesc. cbn. rewrite Hhum. cbn.
  rewrite Hwind. cbn. rewrite Hspeed. reflexivity.
Qed.

Lemma weather_mapping_witness :
  fst (run (upstream 200 (Ok weather_body))
           (get_weather [("city", "Paris")] with_key)) =
    Ok (jsonify (JObj (py_dict
      [("city", JStr "Paris");
       ("temperature", JFloat (PyFloat.of_decimal false 215 (-1)));
       ("description", JStr "clear sky");
       ("humidity", JInt 60);
       ("wind_speed", JFloat (PyFloat.of_decimal false 36 (-1)))]))).
Proof.
  apply (weather_mapping
           (upstream 200 (Ok weather_body)) [("city", "Paris")] with_key
           (weather_url "Paris" "0123456789abcdef")
           {| status_code := 200; response_json := Ok weather_body |}
           (py_dict
              [("name", JStr "Paris");
               ("main", JObj (py_dict
                  [("temp", JFloat (PyFloat.of_decimal false 215 (-1)));
                   ("humidity", JInt 60)]));
               ("weather", JList [JObj (py_dict [("description", JStr "clear sky")])]);
               ("wind", JObj (py_dict
                  [("speed", JFloat (PyFloat.of_decimal false 36 (-1)))]))])
           (py_dict [("temp", JFloat (PyFloat.of_decimal false 215 (-1)));
                     ("humidity", JInt 60)])
           (py_dict [("speed", JFloat (PyFloat.of_decimal false 36 (-1)))])
           (py_dict [("description", JStr "clear sky")])
           []); vm_compute; reflexivity.
Defined.

(** An empty [weather] list in an otherwise usable 200 body gives the 500
    answer with the message of the [IndexError]: the first element is read
    without a test of the length. *)
Theorem weather_empty_list
  (net : network) (args : query) (env : gmap string string) (url : string)
  (resp : response) (m main : gmap string json) (name temp : json) :
  snd (run net (get_weather args env)) = [(url, Ok resp)] →
  status_code resp = 200 →
  response_json resp = Ok (JObj m) →
  m !! "name" = Some name →
  m !! "main" = Some (JObj main) →
  main !! "temp" = Some temp →
  m !! "weather" = Some (JList []) →
  fst (run net (get_weather args env)) =
    Ok (error_response "list index out of range" 500).
Proof.
  intros Htrace Hstatus Hjson Hname Hmain Htemp Hweather.
  rewrite trace_get_weather in Htrace.
  case_bool_decide as Hkey; [done|]. injection Htrace as _ Hnet.
  rewrite run_get_weather_key, answer_try_caught, run_get_weather_try by done.
  cbn [fst]. rewrite Hnet, Hjson, Hstatus.
  unfold weather_fields. cbn.
  rewrite Hname. cbn. rewrite Hmain. cbn. rewrite Htemp. cbn.
  rewrite Hweather. reflexivity.
Qed.

Lemma weather_empty_list_witness :
  fst (run (upstream 200 (Ok no_weather_body)) (get_weather [] with_key)) =
    Ok (error_response "list index out of range" 500).
Proof.
  apply (weather_empty_list
           (upstream 200 (Ok no_weather_body)) [] with_key
           (weather_url "London" "0123456789abcdef")
           {| status_code := 200; response_json := Ok no_weather_body |}
           (py_dict [("name", JStr "London");
                     ("main", JObj (py_dict [("temp", JInt 21)]));
                     ("weather", JList [])])
           (py_dict [("temp", JInt 21)])
           (JStr "London") (JInt 21)); vm_compute; reflexivity.
Defined.

(** ** [/api/github/<username>]: the mapping and missing keys *)

(** On a 200 body with the eight keys that [get_github_stats] reads, the
    view answers 200 with their values, [login] and [html_url] renamed to
    [username] and [profile_url]; a value of [null] (a profile without
    name or bio) is passed on like any other. *)
Theorem github_mapping
  (net : network) (username url : string) (resp : response) (m : gmap string json)
  (login name bio public_repos followers following avatar_url html_url : json) :
  snd (run net (get_github_stats username)) = [(url, Ok resp)] →
  status_code resp = 200 →
  response_json resp = Ok (JObj m) →
  m !! "login" = Some login →
  m !! "name" = Some name →
  m !! "bio" = Some bio →
  m !! "public_repos" = Some public_repos →
  m !! "followers" = Some followers →
  m !! "following" = Some following →
  m !! "avatar_url" = Some avatar_url →
  m !! "html_url" = Some html_url →
  fst (run net (get_github_stats username)) =
    Ok (jsonify (JObj (py_dict
      [("username", login); ("name", name); ("bio", bio);
       ("public_repos", public_repos); ("followers", followers);
       ("following", following); ("avatar_url", avatar_url);
       ("profile_url", html_url)]))).
Proof.
  intros Htrace Hstatus Hjson H1 H2 H3 H4 H5 H6 H7 H8.
  rewrite trace_get_github_stats in Htrace. injection Htrace as _ Hnet.
  unfold get_github_stats.
  rewrite answer_try_caught, run_get_github_stats_try.
  cbn [fst]. rewrite Hnet, Hjson, Hstatus.
  unfold github_fields. cbn.
  rewrite H1. cbn. rewrite H2. cbn. rewrite H3. cbn. rewrite H4. cbn.
  rewrite H5. cbn. rewrite H6. cbn. rewrite H7. cbn. rewrite H8. reflexivity.
Qed.

Lemma github_mapping_witness :
  fst (run (upstream 200 (Ok github_body)) (get_github_stats "octocat")) =
    Ok (jsonify (JObj (py_dict
      [("username", JStr "octocat"); ("name", JNull); ("bio", JNull);
       ("public_repos", JInt 8); ("followers", JInt 100);
       ("following", JInt 9);
       ("avatar_url", JStr "https://avatars.githubusercontent.com/u/583231");
       ("profile_url", JStr "https://github.com/octocat")]))).
Proof.
  apply (github_mapping
           (upstream 200 (Ok github_body)) "octocat" (github_url "octocat")
           {| status_code := 200; response_json := Ok github_body |}
           github_map); vm_compute; reflexivity.
Defined.

(** When a 200 body is an object without one of the eight keys, the view
    answers 500, and the message names a missing key (the first one in the
    order [login], [name], [bio], [public_repos], [followers],
    [following], [avatar_url], [html_url]). *)
Theorem github_missing_key
  (net : network) (username url : string) (resp : response) (m : gmap string json) :
  snd (run net (get_github_stats username)) = [(url, Ok resp)] →
  status_code resp = 200 →
  response_json resp = Ok (JObj m) →
  Exists (fun k => m !! k = None)
         ["login"; "name"; "bio"; "public_repos"; "followers"; "following";
          "avatar_url"; "html_url"] →
  ∃ k, m !! k = None ∧
       k ∈ ["login"; "name"; "bio"; "public_repos"; "followers"; "following";
            "avatar_url"; "html_url"] ∧
       fst (run net (get_github_stats username)) =
         Ok (error_response ("'" +:+ k +:+ "'") 500).
Proof.
  intros Htrace Hstatus Hjson Hmissing.
  rewrite trace_get_github_stats in Htrace. injection Htrace as _ Hnet.
  unfold get_github_stats.
  rewrite answer_try_caught, run_get_github_stats_try.
  cbn [fst]. rewrite Hnet, Hjson, Hstatus.
  unfold github_fields. cbn.
  destruct (m !! "login") eqn:?; cbn;
    [|exists "login"; repeat split; [done | apply list_elem_of_In; simpl; tauto]].
  destruct (m !! "name") eqn:?; cbn;
    [|exists "name"; repeat split; [done | apply list_elem_of_In; simpl; tauto]].
  destruct (m !! "bio") eqn:?; cbn;
    [|exists "bio"; repeat split; [done | apply list_elem_of_In; simpl; tauto]].
  destruct (m !! "public_repos") eqn:?; cbn;
    [|exists "public_repos"; repeat split; [done | apply list_elem_of_In; simpl; tauto]].
  destruct (m !! "followers") eqn:?; cbn;
    [|exists "followers"; repeat split; [done | apply list_elem_of_In; simpl; tauto]].
  destruct (m !! "following") eqn:?; cbn;
    [|exists "following"; repeat split; [done | apply list_elem_of_In; simpl; tauto]].
  destruct (m !! "avatar_url") eqn:?; cbn;
    [|exists "avatar_url"; repeat split; [done | apply list_elem_of_In; simpl; tauto]].
  destruct (m !! "html_url") eqn:?; cbn;
    [|exists "html_url"; repeat split; [done | apply list_elem_of_In; simpl; tauto]].
  repeat (apply Exists_cons in Hmissing as [? | Hmissing]; [congruence|]).
  by apply Exists_nil in Hmissing.
Qed.

Lemma github_missing_key_witness :
  ∃ k, ({[ "login" := JStr "octocat" ]} : gmap string json) !! k = None ∧
       k ∈ ["login"; "name"; "bio"; "public_repos"; "followers"; "following";
            "avatar_url"; "html_url"] ∧
       fst (run (upstream 200 (Ok (JObj {[ "login" := JStr "octocat" ]})))
                (get_github_stats "octocat")) =
         Ok (error_response ("'" +:+ k +:+ "'") 500).
Proof.
  apply (github_missing_key
           (upstream 200 (Ok (JObj {[ "login" := JStr "octocat" ]}))) "octocat"
           (github_url "octocat")
           {| status_code := 200;
              response_json := Ok (JObj {[ "login" := JStr "octocat" ]}) |}).
  - reflexivity.
  - reflexivity.
  - reflexivity.
  - apply Exists_cons_tl, Exists_cons_hd. vm_compute. reflexivity.
Defined.

(** ** [/api/currency]: the kinds of rate *)

(** A rate that is a JSON float other than zero always converts: the
    answer is 200 with [converted = round(amount * rate, 2)], also for an
    infinite or NaN rate or amount. *)
Theorem currency_float_rate
  (net : network) (args : query) (url : string) (resp : response)
  (amount f : PyFloat.float) (data rates : gmap string json) :
  amount_arg args = Ok amount →
  snd (run net (convert_currency args)) = [(url, Ok resp)] →
  status_code resp = 200 →
  response_json resp = Ok (JObj data) →
  data !! "rates" = Some (JObj rates) →
  rates !! args_get args "to" "EUR" = Some (JFloat f) →
  PyFloat.truthy f = true →
  fst (run net (convert_currency args)) =
    Ok (jsonify (JObj (py_dict
      [("from", JStr (args_get args "from" "USD"));
       ("to", JStr (args_get args "to" "EUR"));
       ("amount", JFloat amount);
       ("converted", JFloat (PyFloat.round2 (PyFloat.mul amount f)));
       ("rate", JFloat f)]))).
Proof.
  intros Hamount Htrace Hstatus Hjson Hrates Hrate Htruthy.
  rewrite trace_convert_currency, Hamount in Htrace.
  injection Htrace as _ Hnet.
  rewrite run_convert_currency, Hamount, answer_try_caught,
    run_convert_currency_try. cbn [fst].
  rewrite Hnet, Hjson, Hstatus. cbn.
  rewrite Hrates. cbn. rewrite Hrate. cbn. rewrite Htruthy. reflexivity.
Qed.

Lemma currency_float_rate_witness :
  fst (run (upstream 200 (Ok (rates_body (JFloat S754_nan))))
           (convert_currency ten_dollars)) =
    Ok (jsonify (JObj (py_dict
      [("from", JStr (args_get ten_dollars "from" "USD"));
       ("to", JStr (args_get ten_dollars "to" "EUR"));
       ("amount", JFloat (PyFloat.of_Z 10));
       ("converted",
        JFloat (PyFloat.round2 (PyFloat.mul (PyFloat.of_Z 10) S754_nan)));
       ("rate", JFloat S754_nan)]))).
Proof.
  apply (currency_float_rate
           (upstream 200 (Ok (rates_body (JFloat S754_nan)))) ten_dollars
           (currency_url "USD")
           {| status_code := 200;
              response_json := Ok (rates_body (JFloat S754_nan)) |}
           (PyFloat.of_Z 10) S754_nan
           (py_dict [("base", JStr "USD");
                     ("rates", JObj (py_dict [("EUR", JFloat S754_nan)]))])
           (py_dict [("EUR", JFloat S754_nan)])); vm_compute; reflexivity.
Defined.

(** A rate that is a non-empty string or list passes the test [if rate:]
    and fails in the product: the answer is 500 with the message of the
    [TypeError], not the 400 of an invalid currency. *)
Theorem currency_sequence_rate
  (net : network) (args : query) (url : string) (resp : response)
  (data rates : gmap string json) (r : json) :
  snd (run net (convert_currency args)) = [(url, Ok resp)] →
  status_code resp = 200 →
  response_json resp = Ok (JObj data) →
  data !! "rates" = Some (JObj rates) →
  rates !! args_get args "to" "EUR" = Some r →
  (∃ s, r = JStr s ∧ s ≠ "") ∨ (∃ l, r = JList l ∧ l ≠ []) →
  fst (run net (convert_currency args)) =
    Ok (error_response "can't multiply sequence by non-int of type 'float'" 500).
Proof.
  intros Htrace Hstatus Hjson Hrates Hrate Hseq.
  rewrite trace_convert_currency in Htrace.
  rewrite run_convert_currency.
  destruct (amount_arg args) as [amount | e]; [|done].
  injection Htrace as _ Hnet.
  rewrite answer_try_caught, run_convert_currency_try. cbn [fst].
  rewrite Hnet, Hjson, Hstatus. cbn.
  rewrite Hrates. cbn. rewrite Hrate. cbn.
  destruct Hseq as [(s & -> & Hs) | (l & -> & Hl)]; cbn;
    by rewrite bool_decide_eq_false_2.
Qed.

Lemma currency_sequence_rate_witness :
  fst (run (upstream 200 (Ok (rates_body (JStr "0.85"))))
           (convert_currency ten_dollars)) =
    Ok (error_response "can't multiply sequence by non-int of type 'float'" 500).
Proof.
  apply (currency_sequence_rate
           (upstream 200 (Ok (rates_body (JStr "0.85")))) ten_dollars
           (currency_url "USD")
           {| status_code := 200; response_json := Ok (rates_body (JStr "0.85")) |}
           (py_dict [("base", JStr "USD");
                     ("rates", JObj (py_dict [("EUR", JStr "0.85")]))])
           (py_dict [("EUR", JStr "0.85")]) (JStr "0.85")).
  - vm_compute. reflexivity.
  - reflexivity.
  - reflexivity.
  - vm_compute. reflexivity.
  - vm_compute. reflexivity.
  - left. exists "0.85". split; [reflexivity | discriminate].
Defined.

(** A 200 body without the key ['rates'] gives the 500 answer with the
    message of the [KeyError]; a ['rates'] that is a list gives the 500
    answer with the message of the [AttributeError].  Neither gives the
    400 of an invalid currency. *)
Theorem currency_without_rates
  (net : network) (args : query) (url : string) (resp : response)
  (data : gmap string json) :
  snd (run net (convert_currency args)) = [(url, Ok resp)] →
  status_code resp = 200 →
  response_json resp = Ok (JObj data) →
  (data !! "rates" = None →
   fst (run net (convert_currency args)) = Ok (error_response "'rates'" 500)) ∧
  (∀ l, data !! "rates" = Some (JList l) →
   fst (run net (convert_currency args)) =
     Ok (error_response "'list' object has no attribute 'get'" 500)).
Proof.
  intros Htrace Hstatus Hjson.
  rewrite trace_convert_currency in Htrace.
  rewrite run_convert_currency.
  destruct (amount_arg args) as [amount | e]; [|done].
  injection Htrace as _ Hnet.
  rewrite answer_try_caught, run_convert_currency_try. cbn [fst].
  rewrite Hnet, Hjson, Hstatus. cbn.
  split; [intros Hrates | intros l Hrates]; by rewrite Hrates.
Qed.

Lemma currency_without_rates_witness :
  (({[ "result" := JStr "error" ]} : gmap string json) !! "rates" = None →
   fst (run (upstream 200 (Ok (JObj {[ "result" := JStr "error" ]})))
            (convert_currency ten_dollars)) =
     Ok (error_response "'rates'" 500)) ∧
  (∀ l, ({[ "result" := JStr "error" ]} : gmap string json) !! "rates" =
          Some (JList l) →
   fst (run (upstream 200 (Ok (JObj {[ "result" := JStr "error" ]})))
            (convert_currency ten_dollars)) =
     Ok (error_response "'list' object has no attribute 'get'" 500)).
Proof.
  apply (currency_without_rates
           (upstream 200 (Ok (JObj {[ "result" := JStr "error" ]}))) ten_dollars
           (currency_url "USD")
           {| status_code := 200;
              response_json := Ok (JObj {[ "result" := JStr "error" ]}) |}).
  - vm_compute. reflexivity.
  - reflexivity.
  - reflexivity.
Defined.

(** ** [/api/news]: the first ten articles decide *)

Lemma news_entry_missing (a : gmap string json) :
  Exists (fun k => a !! k = None)
         ["title"; "description"; "url"; "published_at"; "tag_list"] →
  ∃ e, news_entry (JObj a) = Raise e.
Proof.
  intros Hmissing. unfold news_entry. cbn.
  destruct (a !! "title") eqn:?; cbn; [|eauto].
  destruct (a !! "description") eqn:?; cbn; [|eauto].
  destruct (a !! "url") eqn:?; cbn; [|eauto].
  destruct (a !! "published_at") eqn:?; cbn; [|eauto].
  destruct (a !! "tag_list") eqn:?; cbn; [|eauto].
  repeat (apply Exists_cons in Hmissing as [? | Hmissing]; [congruence|]).
  by apply Exists_nil in Hmissing.
Qed.

Lemma news_loop_raises (items articles : list json) :
  Exists (fun a => ∃ e, news_entry a = Raise e) items →
  ∃ e, news_loop items articles = Raise e.
Proof.
  intros Hbad. revert articles.
  induction Hbad as [a items [e He] | a items _ IH]; intros articles; simpl.
  - rewrite He. eauto.
  - destruct (news_entry a) as [entry | e]; cbn; eauto.
Qed.

(** The answer of [get_news] depends on the first ten items of the
    upstream list only: two 200 bodies that agree on them get the same
    answer, whatever follows. *)
Theorem news_ignores_beyond_ten
  (net1 net2 : network) (url1 url2 : string) (resp1 resp2 : response)
  (items1 items2 : list json) :
  snd (run net1 get_news) = [(url1, Ok resp1)] →
  snd (run net2 get_news) = [(url2, Ok resp2)] →
  status_code resp1 = 200 → status_code resp2 = 200 →
  response_json resp1 = Ok (JList items1) →
  response_json resp2 = Ok (JList items2) →
  take 10 items1 = take 10 items2 →
  fst (run net1 get_news) = fst (run net2 get_news).
Proof.
  intros Htrace1 Htrace2 Hs1 Hs2 Hj1 Hj2 Hsame.
  rewrite trace_get_news in Htrace1, Htrace2.
  injection Htrace1 as _ Hnet1. injection Htrace2 as _ Hnet2.
  unfold get_news. rewrite !answer_try_caught, !run_get_news_try. cbn [fst].
  rewrite Hnet1, Hnet2, Hj1, Hj2, Hs1, Hs2. cbn. by rewrite Hsame.
Qed.

Lemma news_ignores_beyond_ten_witness :
  fst (run (upstream 200 (Ok (JList ((article <$> seqZ 1 10) ++ [JNull])))) get_news) =
  fst (run (upstream 200 (Ok (JList (article <$> seqZ 1 10)))) get_news).
Proof.
  apply (news_ignores_beyond_ten
           (upstream 200 (Ok (JList ((article <$> seqZ 1 10) ++ [JNull]))))
           (upstream 200 (Ok (JList (article <$> seqZ 1 10))))
           news_url news_url
           {| status_code := 200;
              response_json := Ok (JList ((article <$> seqZ 1 10) ++ [JNull])) |}
           {| status_code := 200;
              response_json := Ok (JList (article <$> seqZ 1 10)) |}
           ((article <$> seqZ 1 10) ++ [JNull]) (article <$> seqZ 1 10));
    reflexivity.
Defined.

(** One bad article among the first ten spoils the whole feed: when an
    item at an index below 10 is an object without one of the five keys,
    the answer is 500 and no article is returned. *)
Theorem news_all_or_nothing
  (net : network) (url : string) (resp : response) (items : list json)
  (i : nat) (a : gmap string json) :
  snd (run net get_news) = [(url, Ok resp)] →
  status_code resp = 200 →
  response_json resp = Ok (JList items) →
  (i < 10)%nat →
  items !! i = Some (JObj a) →
  Exists (fun k => a !! k = None)
         ["title"; "description"; "url"; "published_at"; "tag_list"] →
  ∃ e, fst (run net get_news) = Ok (error_response (str_exn e) 500).
Proof.
  intros Htrace Hstatus Hjson Hi Hitem Hmissing.
  rewrite trace_get_news in Htrace. injection Htrace as _ Hnet.
  destruct (news_loop_raises (take 10 items) []) as [e He].
  { apply Exists_exists. exists (JObj a). split.
    - apply list_elem_of_lookup. exists i. by rewrite lookup_take_lt.
    - by apply news_entry_missing. }
  exists e. unfold get_news.
  rewrite answer_try_caught, run_get_news_try. cbn [fst].
  rewrite Hnet, Hjson, Hstatus. cbn. by rewrite He.
Qed.

Lemma news_all_or_nothing_witness :
  ∃ e, fst (run (upstream 200 (Ok (JList [article 1; JObj ∅; article 3]))) get_news) =
         Ok (error_response (str_exn e) 500).
Proof.
  apply (news_all_or_nothing
           (upstream 200 (Ok (JList [article 1; JObj ∅; article 3]))) news_url
           {| status_code := 200;
              response_json := Ok (JList [article 1; JObj ∅; article 3]) |}
           [article 1; JObj ∅; article 3] 1 ∅).
  - reflexivity.
  - reflexivity.
  - reflexivity.
  - lia.
  - reflexivity.
  - apply Exists_cons_hd. reflexivity.
Defined.

(** ** A blank [amount] *)

Lemma drop_underscores_spaces (s : list ascii) (prev : ascii) :
  Forall (fun c => PyFloat.is_space c = true) s →
  PyFloat.is_underscore prev = false →
  PyFloat.drop_underscores prev s = Some s.
Proof.
  intros Hs. revert prev.
  induction Hs as [| c s Hc _ IH]; intros prev Hprev; simpl.
  - by rewrite Hprev.
  - assert (PyFloat.is_underscore c = false) as Hcu.
    { unfold PyFloat.is_underscore. apply bool_decide_eq_false. by intros ->. }
    rewrite Hcu, Hprev. cbn. by rewrite IH.
Qed.

Lemma lstrip_spaces (s : list ascii) :
  Forall (fun c => PyFloat.is_space c = true) s → PyFloat.lstrip s = [].
Proof.
  induction 1 as [| c s Hc _ IH]; simpl; [done|]. by rewrite Hc.
Qed.

Lemma to_ascii_text_spaces (s : list ascii) :
  Forall (fun c => PyFloat.is_space c = true) s →
  Unicode.utf8_decode ((fun c => Z.of_nat (nat_of_ascii c)) <$> s)
    ≫= mapM Unicode.to_ascii_char = Some s.
Proof.
  induction 1 as [| c s Hc _ IH]; [done|].
  assert (Z.of_nat (nat_of_ascii c) < 127) as Hlt.
  { unfold PyFloat.is_space in Hc. cbv zeta in Hc.
    apply orb_true_iff in Hc as [Hc | Hc].
    - apply andb_true_iff in Hc as [_ Hc]. apply Z.leb_le in Hc. lia.
    - apply Z.eqb_eq in Hc. lia. }
  assert (Unicode.to_ascii_char (Z.of_nat (nat_of_ascii c)) = Some c) as Hchar.
  { unfold Unicode.to_ascii_char, Unicode.char_of.
    replace (Z.of_nat (nat_of_ascii c) <? 127) with true
      by (symmetry; apply Z.ltb_lt; lia).
    by rewrite Nat2Z.id, ascii_nat_embedding. }
  rewrite fmap_cons. simpl.
  replace (Z.of_nat (nat_of_ascii c) <? 128) with true
    by (symmetry; apply Z.ltb_lt; lia).
  destruct (Unicode.utf8_decode _) as [cps|]; [|done].
  simpl in *. rewrite Hchar. simpl. by rewrite IH.
Qed.

(** An [amount] that is empty or made of ASCII white space only is
    refused by [float(...)]: a [ValueError] leaves [convert_currency] and
    no call goes out. *)
Theorem blank_amount_is_refused (net : network) (args : query) (s : string) :
  args_lookup args "amount" = Some s →
  Forall (fun c => PyFloat.is_space c = true) (list_ascii_of_string s) →
  ∃ e, exn_class_of e = ValueError ∧
       run net (convert_currency args) = (Raise e, []).
Proof.
  intros Hamount Hblank.
  assert (PyFloat.of_string s = None) as Hnone.
  { unfold PyFloat.of_string, Unicode.to_ascii_text, Unicode.code_points,
      Unicode.byte_values.
    rewrite to_ascii_text_spaces by done. cbn.
    rewrite drop_underscores_spaces by done. cbn.
    unfold PyFloat.rstrip.
    by rewrite (lstrip_spaces (list_ascii_of_string s)). }
  exists (Exn ValueError ("could not convert string to float: " +:+ repr_str s)).
  split; [reflexivity|]. apply bad_amount_is_raised.
  unfold amount_arg, float_of_str. by rewrite Hamount, Hnone.
Qed.

Lemma blank_amount_is_refused_witness :
  ∃ e, exn_class_of e = ValueError ∧
       run unreachable (convert_currency [("amount", "  ")]) = (Raise e, []).
Proof.
  apply (blank_amount_is_refused unreachable [("amount", "  ")] "  ").
  - reflexivity.
  - repeat constructor.
Defined.

(** ** What the parameters do not reach *)

(** Given the same upstream answer, the weather answer does not depend on
    the city or on the API key, the GitHub answer not on the user name,
    and the IP answer not on the address: these go into the URL that is
    called and nowhere else. *)
Theorem answers_ignore_parameters (net1 net2 : network) (r : result response) :
  (∀ args1 args2 env1 env2 url1 url2,
     snd (run net1 (get_weather args1 env1)) = [(url1, r)] →
     snd (run net2 (get_weather args2 env2)) = [(url2, r)] →
     fst (run net1 (get_weather args1 env1)) =
     fst (run net2 (get_weather args2 env2))) ∧
  (∀ username1 username2 url1 url2,
     snd (run net1 (get_github_stats username1)) = [(url1, r)] →
     snd (run net2 (get_github_stats username2)) = [(url2, r)] →
     fst (run net1 (get_github_stats username1)) =
     fst (run net2 (get_github_stats username2))) ∧
  (∀ args1 args2 url1 url2,
     snd (run net1 (ip_lookup args1)) = [(url1, r)] →
     snd (run net2 (ip_lookup args2)) = [(url2, r)] →
     fst (run net1 (ip_lookup args1)) = fst (run net2 (ip_lookup args2))).
Proof.
  repeat split.
  - intros args1 args2 env1 env2 url1 url2 H1 H2.
    rewrite trace_get_weather in H1, H2.
    do 2 case_bool_decide; try discriminate.
    injection H1 as _ Hnet1. injection H2 as _ Hnet2.
    rewrite !run_get_weather_key, !answer_try_caught, !run_get_weather_try by done.
    cbn [fst]. by rewrite Hnet1, Hnet2.
  - intros username1 username2 url1 url2 H1 H2.
    rewrite trace_get_github_stats in H1, H2.
    injection H1 as _ Hnet1. injection H2 as _ Hnet2.
    unfold get_github_stats.
    rewrite !answer_try_caught, !run_get_github_stats_try.
    cbn [fst]. by rewrite Hnet1, Hnet2.
  - intros args1 args2 url1 url2 H1 H2.
    rewrite trace_ip_lookup in H1, H2.
    injection H1 as _ Hnet1. injection H2 as _ Hnet2.
    unfold ip_lookup. rewrite !answer_try_caught, !run_ip_lookup_try.
    cbn [fst]. by rewrite Hnet1, Hnet2.
Qed.

Lemma answers_ignore_parameters_witness :
  fst (run (upstream 200 (Ok weather_body))
           (get_weather [("city", "Paris")] with_key)) =
  fst (run (only_at (weather_url "Lyon" "fedcba9876543210")
                    (Ok {| status_code := 200; response_json := Ok weather_body |}))
           (get_weather [("city", "Lyon")] other_key)).
Proof.
  apply (proj1 (answers_ignore_parameters
                  (upstream 200 (Ok weather_body))
                  (only_at (weather_url "Lyon" "fedcba9876543210")
                           (Ok {| status_code := 200;
                                  response_json := Ok weather_body |}))
                  (Ok {| status_code := 200; response_json := Ok weather_body |}))
               [("city", "Paris")] [("city", "Lyon")] with_key other_key
               (weather_url "Paris" "0123456789abcdef")
               (weather_url "Lyon" "fedcba9876543210")).
  - vm_compute. reflexivity.
  - vm_compute. reflexivity.
Defined.
